(** * quiz-solver: the chain driver, its text extractors and the attachment
      batch decoder, embedded from [quiz_solver.py] and [data_processor.py].

    Texts are Python [str] values whose code points lie below 256; they are
    written as [string], one [ascii] per code point.  Whitespace, case
    folding and case-insensitive matching are Python's on that range. *)

From Stdlib Require Import Bool Arith ZArith Lia List Ascii String.
From Stdlib Require Floats.SpecFloat.
From Stdlib Require Import DecimalString.
Import ListNotations.

Local Open Scope list_scope.
Local Open Scope string_scope.

Set Implicit Arguments.

(** ** Exceptions *)

(** A raised exception is represented by its message, [str(e)]. *)
Definition exn := string.

Inductive result (A : Type) : Type :=
| Ok (a : A)
| Raise (e : exn).

Arguments Ok {A} a.
Arguments Raise {A} e.

Definition rbind {A B : Type} (r : result A) (k : A -> result B) : result B :=
  match r with
  | Ok a => k a
  | Raise e => Raise e
  end.

Notation "x <~ r ;; k" := (rbind r (fun x => k))
  (at level 61, r at next level, right associativity).

(** ** Python strings *)

Module PyStr.

Definition code (c : ascii) : nat := nat_of_ascii c.

Definition nl : ascii := ascii_of_nat 10.
Definition dq : ascii := ascii_of_nat 34.
Definition s1 (c : ascii) : string := String c EmptyString.

(** [str.isspace] for one character, which is also the class [\s] of a
    [str] pattern: TAB..CR, FS..US, SPACE, NEL and NBSP. *)
Definition is_space (c : ascii) : bool :=
  let n := code c in
  (((9 <=? n) && (n <=? 13)) || ((28 <=? n) && (n <=? 32))
   || (n =? 133) || (n =? 160))%nat.

(** [str.lower] on one character: A..Z and the accented capitals
    U+00C0..U+00DE, the multiplication sign U+00D7 apart. *)
Definition lower_char (c : ascii) : ascii :=
  let n := code c in
  if (((65 <=? n) && (n <=? 90))
      || ((192 <=? n) && (n <=? 222) && negb (n =? 215)))%nat
  then ascii_of_nat (n + 32) else c.

Fixpoint lower (s : string) : string :=
  match s with
  | EmptyString => EmptyString
  | String c t => String (lower_char c) (lower t)
  end.

Definition is_empty (s : string) : bool :=
  match s with EmptyString => true | _ => false end.

(** [s.lstrip()] *)
Fixpoint lstrip (s : string) : string :=
  match s with
  | EmptyString => EmptyString
  | String c t => if is_space c then lstrip t else s
  end.

(** [s.rstrip()] *)
Fixpoint rstrip (s : string) : string :=
  match s with
  | EmptyString => EmptyString
  | String c t =>
      let t' := rstrip t in
      if is_space c && is_empty t' then EmptyString else String c t'
  end.

(** [s.strip()] *)
Definition strip (s : string) : string := rstrip (lstrip s).

(** [needle in s] *)
Fixpoint contains (needle s : string) : bool :=
  prefix needle s
  || match s with
     | EmptyString => false
     | String _ t => contains needle t
     end.

(** [s.endswith(suffix)] *)
Fixpoint endswith (suffix s : string) : bool :=
  String.eqb suffix s
  || match s with
     | EmptyString => false
     | String _ t => endswith suffix t
     end.

(** [s.startswith(p)], returning what follows [p]. *)
Fixpoint strip_prefix (p s : string) : option string :=
  match p, s with
  | EmptyString, _ => Some s
  | String a p', String b s' =>
      if Ascii.eqb a b then strip_prefix p' s' else None
  | String _ _, EmptyString => None
  end.

(** The same, ignoring case as [re.IGNORECASE] does. *)
Fixpoint strip_prefix_ci (p s : string) : option string :=
  match p, s with
  | EmptyString, _ => Some s
  | String a p', String b s' =>
      if Ascii.eqb (lower_char a) (lower_char b)
      then strip_prefix_ci p' s' else None
  | String _ _, EmptyString => None
  end.

(** The longest prefix of [s] whose characters satisfy [f]. *)
Fixpoint take_while (f : ascii -> bool) (s : string) : string :=
  match s with
  | EmptyString => EmptyString
  | String c t => if f c then String c (take_while f t) else EmptyString
  end.

Fixpoint drop_while (f : ascii -> bool) (s : string) : string :=
  match s with
  | EmptyString => EmptyString
  | String c t => if f c then drop_while f t else s
  end.

Fixpoint forallb (f : ascii -> bool) (s : string) : bool :=
  match s with
  | EmptyString => true
  | String c t => f c && forallb f t
  end.

(** [s.split('\n')]: never empty, one more piece than newlines. *)
Fixpoint split_nl (s : string) : list string :=
  match s with
  | EmptyString => [EmptyString]
  | String c t =>
      if Ascii.eqb c nl then EmptyString :: split_nl t
      else match split_nl t with
           | h :: r => String c h :: r
           | [] => [s1 c]
           end
  end.

(** [s[:n]] *)
Fixpoint take (n : nat) (s : string) : string :=
  match n, s with
  | S k, String c t => String c (take k t)
  | _, _ => EmptyString
  end.

End PyStr.

(** ** The Submit-URL extractor ([QuizSolver.extract_submit_url]) *)

Definition submit_phrase : string := "Post your answer to ".

(** A character of the class [[^\s\)]]. *)
Definition url_char (c : ascii) : bool :=
  negb (PyStr.is_space c) && negb (Ascii.eqb c ")").

(** [https?://] at the head of [s]: the scheme matched and what follows. *)
Definition match_scheme (s : string) : option (string * string) :=
  match PyStr.strip_prefix "https://" s with
  | Some rest => Some ("https://", rest)
  | None =>
      match PyStr.strip_prefix "http://" s with
      | Some rest => Some ("http://", rest)
      | None => None
      end
  end.

(** The pattern [Post your answer to (https?://[^\s\)]+)] anchored at the
    head of [s]; the result is group 1. *)
Definition match_submit_here (s : string) : option string :=
  match PyStr.strip_prefix submit_phrase s with
  | None => None
  | Some rest =>
      match match_scheme rest with
      | None => None
      | Some (scheme, rest') =>
          let run := PyStr.take_while url_char rest' in
          if PyStr.is_empty run then None else Some (scheme ++ run)
      end
  end.

(** [re.search]: the leftmost position at which the pattern matches. *)
Fixpoint extract_submit_url (text : string) : option string :=
  match match_submit_here text with
  | Some url => Some url
  | None =>
      match text with
      | EmptyString => None
      | String _ t => extract_submit_url t
      end
  end.

(** ** The attachment type classifier ([DataProcessor.detect_file_type]) *)

Inductive file_type : Type :=
| FtPdf | FtCsv | FtXlsx | FtJson | FtTxt | FtUnknown.

Definition detect_file_type (url : string) : file_type :=
  let url_lower := PyStr.lower url in
  if PyStr.contains ".pdf" url_lower then FtPdf
  else if PyStr.contains ".csv" url_lower then FtCsv
  else if PyStr.contains ".xlsx" url_lower || PyStr.contains ".xls" url_lower
       then FtXlsx
  else if PyStr.contains ".json" url_lower then FtJson
  else if PyStr.contains ".txt" url_lower then FtTxt
  else FtUnknown.

(** ** Python values *)

(** The values that [json.loads] builds, which are also the values the
    driver handles dynamically (answers, submission responses, summaries).
    A [float] is an IEEE 754 binary64 number; a [dict] keeps its keys in
    insertion order and holds each key once. *)
#[warnings="-register-all"]
Inductive pyval : Type :=
| PNone
| PBool (b : bool)
| PInt (z : Z)
| PFloat (f : SpecFloat.spec_float)
| PStr (s : string)
| PList (l : list pyval)
| PDict (d : list (string * pyval)).

Module PyDict.

Section Dict.
Variable V : Type.

Definition dict := list (string * V).

(** [d.get(k)] *)
Fixpoint get (k : string) (d : dict) : option V :=
  match d with
  | [] => None
  | (k', v) :: rest => if String.eqb k k' then Some v else get k rest
  end.

(** [d[k] = v]: an existing key keeps its position. *)
Fixpoint set (k : string) (v : V) (d : dict) : dict :=
  match d with
  | [] => [(k, v)]
  | (k', v') :: rest =>
      if String.eqb k k' then (k', v) :: rest
      else (k', v') :: set k v rest
  end.

Definition keys (d : dict) : list string := map fst d.

Definition has_key (k : string) (d : dict) : bool :=
  match get k d with Some _ => true | None => false end.

End Dict.

End PyDict.

(** [d.get(key, default)] once the key was looked up. *)
Definition or_default (A : Type) (o : option A) (d : A) : A :=
  match o with Some x => x | None => d end.

(** Truth value testing, [bool(v)]. *)
Definition truthy (v : pyval) : bool :=
  match v with
  | PNone => false
  | PBool b => b
  | PInt z => negb (Z.eqb z 0)
  | PFloat (SpecFloat.S754_zero _) => false
  | PFloat _ => true
  | PStr s => negb (PyStr.is_empty s)
  | PList l => match l with [] => false | _ => true end
  | PDict d => match d with [] => false | _ => true end
  end.

(** [v.get(key, default)]: only a [dict] has the method. *)
Definition py_get (v : pyval) (key : string) (default : pyval) : result pyval :=
  match v with
  | PDict d =>
      Ok (match PyDict.get key d with Some x => x | None => default end)
  | _ => Raise "object has no attribute 'get'"
  end.

(** [v[key]] *)
Definition py_getitem (v : pyval) (key : string) : result pyval :=
  match v with
  | PDict d =>
      match PyDict.get key d with
      | Some x => Ok x
      | None => Raise key
      end
  | _ => Raise "object is not subscriptable"
  end.

(** [l[-1]] *)
Definition py_last (A : Type) (l : list A) : result A :=
  match rev l with
  | x :: _ => Ok x
  | [] => Raise "list index out of range"
  end.

(** The library functions the Answer Extractor calls: the JSON decoder and
    the [int] and [float] constructors applied to a [str].  Each returns a
    value or raises. *)
Class PyRuntime : Type := {
  json_loads : string -> result pyval;
  py_int : string -> result Z;
  py_float : string -> result SpecFloat.spec_float
}.

(** ** The Answer Extractor ([QuizSolver.extract_final_answer]) *)

Definition final_marker : string := "FINAL_ANSWER:".

Definition not_nl (c : ascii) : bool := negb (Ascii.eqb c PyStr.nl).

(** [(.+?)(?:\n|$)] under [re.DOTALL], anchored at the head of [s]: one
    character of any kind, then as few more as reach a newline or the end. *)
Definition lazy_group (s : string) : option string :=
  match s with
  | EmptyString => None
  | String c t => Some (String c (PyStr.take_while not_nl t))
  end.

(** [\s*(.+?)(?:\n|$)]: the greedy [\s*] takes every whitespace character it
    can and gives the last one back when nothing is left for the group. *)
Fixpoint match_answer_tail (rest : string) : option string :=
  match rest with
  | EmptyString => None
  | String c t =>
      if PyStr.is_space c then
        match match_answer_tail t with
        | Some g => Some g
        | None => lazy_group rest
        end
      else lazy_group rest
  end.

(** The whole pattern anchored at the head of [s]; the result is group 1. *)
Definition match_final_here (s : string) : option string :=
  match PyStr.strip_prefix_ci final_marker s with
  | Some rest => match_answer_tail rest
  | None => None
  end.

(** [re.search(r'FINAL_ANSWER:\s*(.+?)(?:\n|$)', response,
    re.IGNORECASE | re.DOTALL)] *)
Fixpoint search_final_answer (response : string) : option string :=
  match match_final_here response with
  | Some g => Some g
  | None =>
      match response with
      | EmptyString => None
      | String _ t => search_final_answer t
      end
  end.

Definition nonblank (l : string) : bool := negb (PyStr.is_empty (PyStr.strip l)).

(** [[l.strip() for l in response.strip().split('\n') if l.strip()]] *)
Definition nonblank_lines (response : string) : list string :=
  map PyStr.strip (filter nonblank (PyStr.split_nl (PyStr.strip response))).

(** The string that is then classified: group 1 stripped, or the last
    non-blank line. *)
Definition captured_answer (response : string) : result string :=
  match search_final_answer response with
  | Some g => Ok (PyStr.strip g)
  | None =>
      let lines := nonblank_lines response in
      match lines with
      | [] => Ok (PyStr.strip response)
      | _ => py_last lines
      end
  end.

(** [try: ... except: pass] around a pure computation. *)
Definition try_pass (A : Type) (body : result A) (otherwise : result A) : result A :=
  match body with
  | Ok v => Ok v
  | Raise _ => otherwise
  end.

Definition numeric_parse {py : PyRuntime} (answer : string) : result pyval :=
  if PyStr.contains "." answer then
    match py_float answer with Ok f => Ok (PFloat f) | Raise e => Raise e end
  else
    match py_int answer with Ok z => Ok (PInt z) | Raise e => Raise e end.

Definition is_bool_word (answer : string) : bool :=
  String.eqb (PyStr.lower answer) "true" || String.eqb (PyStr.lower answer) "false".

(** The four stages on the captured string. *)
Definition classify_answer {py : PyRuntime} (answer : string) : result pyval :=
  try_pass (json_loads answer)
    (try_pass (numeric_parse answer)
       (if is_bool_word answer
        then Ok (PBool (String.eqb (PyStr.lower answer) "true"))
        else Ok (PStr answer))).

Definition extract_final_answer {py : PyRuntime} (response : string) : result pyval :=
  match captured_answer response with
  | Ok answer => classify_answer answer
  | Raise e => Raise e
  end.

(** ** The attachment batch decoder ([DataProcessor.process_files]) *)

Definition bytes := list Init.Byte.byte.

(** What [pandas] reads from a CSV file, as far as [process_csv] looks at
    it.  [describe] is only evaluated for a frame that is not empty. *)
Record CsvFrame : Type := {
  csv_shape : pyval;
  csv_columns : pyval;
  csv_head : pyval;
  csv_numeric_columns : pyval;
  csv_empty : bool;
  csv_describe : result pyval;
  csv_records : pyval
}.

Record SheetFrame : Type := {
  sheet_shape : pyval;
  sheet_columns : pyval;
  sheet_head : pyval;
  sheet_records : pyval
}.

(** The parsing libraries behind the decoders: [PyPDF2] (the text of each
    page), [pandas.read_csv], [pandas.read_excel] with every sheet, and
    [bytes.decode('utf-8')]. *)
Class Decoders : Type := {
  pdf_pages : bytes -> result (list string);
  read_csv : bytes -> result CsvFrame;
  read_excel : bytes -> result (list (string * SheetFrame));
  utf8_decode : bytes -> result string
}.

Definition error_summary (e : exn) : pyval := PDict [("error", PStr e)].

(** [except Exception as e: return {"error": str(e)}] *)
Definition or_error_summary (body : result pyval) : pyval :=
  match body with
  | Ok v => v
  | Raise e => error_summary e
  end.

(** [enumerate(pages, n)] turned into the page entries. *)
Fixpoint numbered_pages (n : Z) (texts : list string) : list pyval :=
  match texts with
  | [] => []
  | t :: rest =>
      PDict [("page", PInt n); ("text", PStr t)] :: numbered_pages (n + 1) rest
  end.

Definition process_pdf {dec : Decoders} (content : bytes) : pyval :=
  or_error_summary
    match pdf_pages content with
    | Raise e => Raise e
    | Ok texts =>
        Ok (PDict [("type", PStr "pdf");
                   ("num_pages", PInt (Z.of_nat (List.length texts)));
                   ("pages", PList (numbered_pages 1 texts))])
    end.

Definition process_csv {dec : Decoders} (content : bytes) : pyval :=
  or_error_summary
    match read_csv content with
    | Raise e => Raise e
    | Ok df =>
        match (if csv_empty df then Ok (PDict []) else csv_describe df) with
        | Raise e => Raise e
        | Ok statistics =>
            Ok (PDict [("type", PStr "csv");
                       ("shape", csv_shape df);
                       ("columns", csv_columns df);
                       ("head", csv_head df);
                       ("summary",
                        PDict [("numeric_columns", csv_numeric_columns df);
                               ("statistics", statistics)]);
                       ("data", csv_records df)])
        end
    end.

Definition sheet_entry (df : SheetFrame) : pyval :=
  PDict [("shape", sheet_shape df);
         ("columns", sheet_columns df);
         ("head", sheet_head df);
         ("data", sheet_records df)].

Definition process_excel {dec : Decoders} (content : bytes) : pyval :=
  or_error_summary
    match read_excel content with
    | Raise e => Raise e
    | Ok sheets =>
        Ok (PDict [("type", PStr "excel");
                   ("sheets",
                    PDict (fold_left
                             (fun acc sheet =>
                                PyDict.set (fst sheet) (sheet_entry (snd sheet)) acc)
                             sheets []))])
    end.

Definition process_json {py : PyRuntime} {dec : Decoders} (content : bytes) : pyval :=
  or_error_summary
    match utf8_decode content with
    | Raise e => Raise e
    | Ok text =>
        match json_loads text with
        | Raise e => Raise e
        | Ok data => Ok (PDict [("type", PStr "json"); ("data", data)])
        end
    end.

Definition process_text {dec : Decoders} (content : bytes) : pyval :=
  or_error_summary
    match utf8_decode content with
    | Raise e => Raise e
    | Ok text =>
        Ok (PDict [("type", PStr "text");
                   ("content", PStr text);
                   ("lines", PInt (Z.of_nat (List.length (PyStr.split_nl text))))])
    end.

(** The body of the [try] of [process_files] for one resource. *)
Definition decode_resource {py : PyRuntime} {dec : Decoders}
    (url : string) (content : bytes) : result pyval :=
  match detect_file_type url with
  | FtPdf => Ok (process_pdf content)
  | FtCsv => Ok (process_csv content)
  | FtXlsx => Ok (process_excel content)
  | FtJson => Ok (process_json content)
  | FtTxt => Ok (process_text content)
  | FtUnknown => Ok (error_summary "Unknown file type")
  end.

(** One pass of the [for] loop: [results[url] = ...], also in the handler. *)
Definition process_resource {py : PyRuntime} {dec : Decoders}
    (results : PyDict.dict pyval) (item : string * bytes) : PyDict.dict pyval :=
  PyDict.set (fst item)
    (or_error_summary (decode_resource (fst item) (snd item))) results.

Definition process_files {py : PyRuntime} {dec : Decoders}
    (file_contents : PyDict.dict bytes) : PyDict.dict pyval :=
  fold_left process_resource file_contents [].

(** ** The outside world *)

(** Calls that leave the process run against a state of the world and
    return a value or raise. *)
Definition M (World A : Type) : Type := World -> result A * World.

Definition ret {World A : Type} (a : A) : M World A := fun w => (Ok a, w).

Definition bind {World A B : Type} (c : M World A) (k : A -> M World B)
  : M World B :=
  fun w =>
    match c w with
    | (Ok a, w') => k a w'
    | (Raise e, w') => (Raise e, w')
    end.

Definition lift {World A : Type} (r : result A) : M World A := fun w => (r, w).

(** [try: body except Exception as e: handler(e)] *)
Definition try_except {World A : Type} (body : M World A) (handler : exn -> M World A)
  : M World A :=
  fun w =>
    match body w with
    | (Ok a, w') => (Ok a, w')
    | (Raise e, w') => handler e w'
    end.

Notation "x <- c ;; k" := (bind c (fun x => k))
  (at level 61, c at next level, right associativity).

Record Link : Type := { href : string; text : string }.

(** What the renderer reads from a loaded page. *)
Record Rendered : Type := {
  text_content : string;
  html_content : string;
  page_links : list Link
}.

(** An HTTP response: [status_error] is the message [raise_for_status]
    raises with, [body_json] the outcome of [response.json()]. *)
Record HttpResponse : Type := {
  status_code : Z;
  status_error : exn;
  content : bytes;
  body_json : result pyval
}.

(** The external collaborators of one chain: the headless browser (load a
    URL, wait, read text, markup and anchors, close the page), the HTTP
    client, the reasoning service (the text of the first content block of
    the reply), and [json.dumps(_, indent=2)]. *)
Class Capabilities (World : Type) : Type := {
  render : pyval -> M World Rendered;
  http_get : string -> M World HttpResponse;
  http_post : string -> pyval -> M World HttpResponse;
  create_message : string -> M World string;
  json_dumps : pyval -> result string
}.

(** [response.raise_for_status()]: anything but 2xx raises. *)
Definition is_success (status : Z) : bool :=
  ((200 <=? status) && (status <=? 299))%Z.

Definition raise_for_status (r : HttpResponse) : result unit :=
  if is_success (status_code r) then Ok tt else Raise (status_error r).

(** ** The steps of one quiz *)

Record QuestionData : Type := {
  question : string;
  html : string;
  links : list Link;
  submit_url : option string
}.

Section Solver.

Context {World : Type} {py : PyRuntime} {dec : Decoders} {cap : Capabilities World}.

(** The credentials the solver is built with. *)
Variables (email secret : string).

(** [QuizSolver.extract_question] *)
Definition extract_question (url : pyval) : M World QuestionData :=
  page <- render url ;;
  ret {| question := text_content page;
         html := html_content page;
         links := page_links page;
         submit_url := extract_submit_url (text_content page) |}.

(** [QuizSolver.download_file] *)
Definition download_file (url : string) : M World bytes :=
  response <- http_get url ;;
  _ <- lift (raise_for_status response) ;;
  ret (content response).

Definition attachment_suffixes : list string :=
  [".pdf"; ".csv"; ".xlsx"; ".json"; ".txt"].

(** [any(ext in link['href'].lower() for ext in [...])] *)
Definition is_attachment (link : Link) : bool :=
  existsb (fun ext => PyStr.contains ext (PyStr.lower (href link)))
          attachment_suffixes.

(** The download loop of [solve_question]: a failed download is logged
    and leaves [file_contents] as it was. *)
Fixpoint download_attachments (todo : list Link) (file_contents : PyDict.dict bytes)
  : M World (PyDict.dict bytes) :=
  match todo with
  | [] => ret file_contents
  | link :: rest =>
      if is_attachment link then
        file_contents' <-
          try_except
            (data <- download_file (href link) ;;
             ret (PyDict.set (href link) data file_contents))
            (fun _ => ret file_contents) ;;
        download_attachments rest file_contents'
      else download_attachments rest file_contents
  end.

Definition context_intro (question_text : string) : string :=
  "You are solving a data analysis quiz. Here's the question:

" ++ question_text ++ "

".

Definition context_links (ls : list Link) : string :=
  match ls with
  | [] => ""
  | _ =>
      "
Available links/files:
" ++ String.concat ""
     (map (fun link => "- " ++ text link ++ ": " ++ href link ++ "
") ls)
  end.

Definition context_instructions : string :=
  "
Analyze this question and provide ONLY the final answer in the appropriate format:
- For numbers: return just the number (e.g., 12345)
- For text: return just the text without quotes
- For boolean: return true or false
- For JSON objects: return valid JSON
- For images/files: return base64 data URI

Think step by step but end with " ++ PyStr.s1 PyStr.dq ++ "FINAL_ANSWER:"
  ++ PyStr.s1 PyStr.dq ++ " followed by just the answer.
".

(** [QuizSolver.solve_question] *)
Definition solve_question (question_data : QuestionData) : M World pyval :=
  let context :=
    context_intro (question question_data)
    ++ context_links (links question_data)
    ++ context_instructions in
  file_contents <- download_attachments (links question_data) [] ;;
  context' <-
    match file_contents with
    | [] => ret context
    | _ =>
        dumped <- lift (json_dumps (PDict (process_files file_contents))) ;;
        ret (context ++ "

Processed file data:
" ++ PyStr.take 5000 dumped)
    end ;;
  response_text <- create_message context' ;;
  lift (extract_final_answer response_text).

(** [QuizSolver.submit_answer] *)
Definition submit_payload (quiz_url answer : pyval) : pyval :=
  PDict [("email", PStr email); ("secret", PStr secret);
         ("url", quiz_url); ("answer", answer)].

Definition submit_answer (submit_to : string) (quiz_url answer : pyval)
  : M World pyval :=
  response <- http_post submit_to (submit_payload quiz_url answer) ;;
  _ <- lift (raise_for_status response) ;;
  lift (body_json response).

End Solver.

(** ** The Chain Driver ([QuizSolver.solve_quiz_chain]) *)

(** [run_chain] and [solve_quiz_chain] are the [while] loop and the value
    returned after it.  The browser is launched before the loop and closed
    after it, and the HTTP client is closed last; these calls do not touch
    [results], and [solve_quiz_chain_session] below puts them around the
    loop.  The handler is [except Exception]: whatever the collaborators
    raise is an [exn]. *)

(** An entry of [results]: the record of a submitted answer, or of the
    exception that ended the chain. *)
Inductive StepRecord : Type :=
| StepSolved (url : pyval) (question_excerpt : string)
             (answer correct reason : pyval)
| StepFailed (url : pyval) (error : exn).

Record ChainResult : Type := {
  total_solved : nat;
  chain_results : list StepRecord
}.

(** The local variables of the loop. *)
Record ChainState : Type := {
  current_url : pyval;
  iteration : nat;
  results : list StepRecord
}.

Definition max_iterations : nat := 20.

(** How the part of the [try] block before [results.append] ends when it
    does not raise. *)
Inductive Attempt : Type :=
| NoSubmitUrl
| Submitted (record : StepRecord) (response : pyval).

Inductive Control : Type := Continue | Break.

(** The [if]/[elif]/[else] on the decoded response: the next URL, or
    nothing when the chain is complete. *)
Definition next_url (response : pyval) : result (option pyval) :=
  correct <~ py_get response "correct" PNone ;;
  url <~ py_get response "url" PNone ;;
  if truthy correct && truthy url then
    next <~ py_getitem response "url" ;; Ok (Some next)
  else if negb (truthy correct) && truthy url then
    next <~ py_getitem response "url" ;; Ok (Some next)
  else Ok None.

Section Driver.

Context {World : Type} {py : PyRuntime} {dec : Decoders} {cap : Capabilities World}.
Variables (email secret : string).

(** The [try] block up to the new entry of [results]. *)
Definition attempt_quiz (url : pyval) : M World Attempt :=
  question_data <- extract_question url ;;
  answer <- solve_question question_data ;;
  match submit_url question_data with
  | None => ret NoSubmitUrl
  | Some submit_to =>
      if PyStr.is_empty submit_to then ret NoSubmitUrl
      else
        response <- submit_answer email secret submit_to url answer ;;
        correct <- lift (py_get response "correct" (PBool false)) ;;
        reason <- lift (py_get response "reason" PNone) ;;
        ret (Submitted
               (StepSolved url (PyStr.take 200 (question question_data))
                           answer correct reason)
               response)
  end.

Definition append_record (st : ChainState) (r : StepRecord) : ChainState :=
  {| current_url := current_url st;
     iteration := iteration st;
     results := (results st ++ [r])%list |}.

Definition set_current_url (st : ChainState) (url : pyval) : ChainState :=
  {| current_url := url;
     iteration := iteration st;
     results := results st |}.

Definition failed (st : ChainState) (e : exn) : ChainState :=
  append_record st (StepFailed (current_url st) e).

(** One pass of the [while] loop. *)
Definition chain_step (st : ChainState) (w : World)
  : Control * ChainState * World :=
  let st1 := {| current_url := current_url st;
                iteration := iteration st + 1;
                results := results st |} in
  match attempt_quiz (current_url st1) w with
  | (Raise e, w') => (Break, failed st1 e, w')
  | (Ok NoSubmitUrl, w') => (Break, st1, w')
  | (Ok (Submitted record response), w') =>
      let st2 := append_record st1 record in
      match next_url response with
      | Raise e => (Break, failed st2 e, w')
      | Ok (Some next) => (Continue, set_current_url st2 next, w')
      | Ok None => (Break, st2, w')
      end
  end.

(** [current_url and iteration < max_iterations] *)
Definition loop_guard (st : ChainState) : bool :=
  truthy (current_url st) && (iteration st <? max_iterations)%nat.

(** The [while] loop, run for at most [fuel] evaluations of its guard;
    [None] when they do not suffice. *)
Fixpoint chain_loop (fuel : nat) (st : ChainState) (w : World)
  : option (ChainState * World) :=
  match fuel with
  | O => None
  | S fuel' =>
      if loop_guard st then
        match chain_step st w with
        | (Continue, st', w') => chain_loop fuel' st' w'
        | (Break, st', w') => Some (st', w')
        end
      else Some (st, w)
  end.

Definition initial_state (start_url : pyval) : ChainState :=
  {| current_url := start_url; iteration := 0; results := [] |}.

Definition chain_result (st : ChainState) : ChainResult :=
  {| total_solved := List.length (results st);
     chain_results := results st |}.

(** The state of the loop when it is left. *)
Definition run_chain (start_url : pyval) (w : World)
  : option (ChainState * World) :=
  chain_loop (S max_iterations) (initial_state start_url) w.

Definition solve_quiz_chain (start_url : pyval) (w : World)
  : option (ChainResult * World) :=
  match run_chain start_url w with
  | Some (st, w') => Some (chain_result st, w')
  | None => None
  end.

(** [n] passes of the loop lead from one state to a state in which the
    loop is left. *)
Inductive passes : nat -> ChainState -> World -> ChainState -> World -> Prop :=
| passes_exit st w :
    loop_guard st = false -> passes 0 st w st w
| passes_break st w st' w' :
    loop_guard st = true ->
    chain_step st w = (Break, st', w') ->
    passes 1 st w st' w'
| passes_continue n st w st1 w1 st' w' :
    loop_guard st = true ->
    chain_step st w = (Continue, st1, w1) ->
    passes n st1 w1 st' w' ->
    passes (S n) st w st' w'.

End Driver.

(** ** The browser session around the loop *)

(** What [solve_quiz_chain] does outside its [try]: entering
    [async_playwright()] and launching Chromium before the loop, closing
    the browser and leaving the context manager after it, and closing the
    HTTP client last. *)
Class Session (World : Type) : Type := {
  playwright_start : M World unit;
  chromium_launch : M World unit;
  browser_close : M World unit;
  playwright_stop : M World unit;
  client_aclose : M World unit
}.

(** Leaving [async with]: the context manager is stopped whether its
    body raised or not, and an exception of the stop takes precedence. *)
Definition leave_playwright {World : Type} {ses : Session World} {A : Type}
    (body : result A) : M World A :=
  fun w =>
    match playwright_stop w with
    | (Raise e, w') => (Raise e, w')
    | (Ok _, w') => (body, w')
    end.

(** [QuizSolver.solve_quiz_chain] as a whole: the loop of [run_chain]
    inside the browser session.  An exception outside the [try] leaves the
    function without a result. *)
Definition solve_quiz_chain_session
    {World : Type} {py : PyRuntime} {dec : Decoders}
    {cap : Capabilities World} {ses : Session World}
    (email secret : string) (start_url : pyval) (w : World)
  : option (result ChainResult * World) :=
  match playwright_start w with
  | (Raise e, w1) => Some (Raise e, w1)
  | (Ok _, w1) =>
      match chromium_launch w1 with
      | (Raise e, w2) => Some (leave_playwright (Raise e) w2)
      | (Ok _, w2) =>
          match run_chain email secret start_url w2 with
          | None => None
          | Some (st, w3) =>
              match browser_close w3 with
              | (Raise e, w4) => Some (leave_playwright (Raise e) w4)
              | (Ok _, w4) =>
                  match leave_playwright (Ok tt) w4 with
                  | (Raise e, w5) => Some (Raise e, w5)
                  | (Ok _, w5) =>
                      match client_aclose w5 with
                      | (Raise e, w6) => Some (Raise e, w6)
                      | (Ok _, w6) => Some (Ok (chain_result st), w6)
                      end
                  end
              end
          end
      end
  end.

(** ** A reference runtime *)

(** CPython's [int], [float] and [json.loads] on texts of this range, for
    running the extractor on concrete replies.  What is left out: the
    interpreter's recursion limit, and [\u] escapes of code points above
    U+00FF, which this decoder refuses. *)
Module Reference.

Definition is_digit (c : ascii) : bool :=
  ((48 <=? PyStr.code c) && (PyStr.code c <=? 57))%nat.

Definition digit_value (c : ascii) : Z := Z.of_nat (PyStr.code c - 48).

(** [(["_"] digit)*] *)
Fixpoint digitpart_tail (s : string) : string * string :=
  match s with
  | EmptyString => (EmptyString, EmptyString)
  | String c t =>
      if is_digit c then
        let (ds, r) := digitpart_tail t in (String c ds, r)
      else if Ascii.eqb c "_" then
        match t with
        | String d t' =>
            if is_digit d then
              let (ds, r) := digitpart_tail t' in (String d ds, r)
            else (EmptyString, s)
        | EmptyString => (EmptyString, s)
        end
      else (EmptyString, s)
  end.

(** [digit (["_"] digit)*]: the digits and what follows them. *)
Definition digitpart (s : string) : option (string * string) :=
  match s with
  | String c t =>
      if is_digit c then
        let (ds, r) := digitpart_tail t in Some (String c ds, r)
      else None
  | EmptyString => None
  end.

Fixpoint decimal_value (acc : Z) (digits : string) : Z :=
  match digits with
  | EmptyString => acc
  | String c t => decimal_value (10 * acc + digit_value c) t
  end.

Definition split_sign (s : string) : bool * string :=
  match s with
  | String c t =>
      if Ascii.eqb c "-" then (true, t)
      else if Ascii.eqb c "+" then (false, t)
      else (false, s)
  | EmptyString => (false, s)
  end.

(** [sys.int_info.default_max_str_digits] *)
Definition int_max_str_digits : nat := 4300.

(** [int(s)] *)
Definition int_of_str (s : string) : result Z :=
  let (negative, body) := split_sign (PyStr.strip s) in
  match digitpart body with
  | Some (digits, EmptyString) =>
      if (int_max_str_digits <? String.length digits)%nat
      then Raise "Exceeds the limit (4300 digits) for integer string conversion"
      else Ok (if negative then (- decimal_value 0 digits)%Z
               else decimal_value 0 digits)
  | _ => Raise "invalid literal for int() with base 10"
  end.

Definition prec : Z := 53.
Definition emax : Z := 1024.

(** The binary64 number nearest to [m * 10^e], ties to even. *)
Definition float_of_decimal (negative : bool) (m e : Z) : SpecFloat.spec_float :=
  match m with
  | Zpos p =>
      if (400 <? e)%Z then SpecFloat.S754_infinity negative
      else if (Z.log2 m + 1 + e <? -400)%Z then SpecFloat.S754_zero negative
      else if (0 <=? e)%Z then
        SpecFloat.binary_round prec emax negative (Z.to_pos (m * 10 ^ e)) 0
      else
        SpecFloat.SFdiv prec emax
          (SpecFloat.S754_finite negative p 0)
          (SpecFloat.S754_finite false (Z.to_pos (10 ^ (- e))) 0)
  | _ => SpecFloat.S754_zero negative
  end.

(** [digitpart] where the grammar makes it optional. *)
Definition digitpart_opt (s : string) : string * string :=
  match digitpart s with
  | Some r => r
  | None => (EmptyString, s)
  end.

(** [("e" | "E") [sign] digitpart], when it is there. *)
Definition exponent_opt (s : string) : option (Z * string) :=
  match s with
  | String c t =>
      if Ascii.eqb c "e" || Ascii.eqb c "E" then
        let (negative, body) := split_sign t in
        match digitpart body with
        | Some (digits, r) =>
            Some (if negative then (- decimal_value 0 digits)%Z
                  else decimal_value 0 digits, r)
        | None => None
        end
      else Some (0%Z, s)
  | EmptyString => Some (0%Z, s)
  end.

(** [float(s)] *)
Definition float_of_str (s : string) : result SpecFloat.spec_float :=
  let (negative, body) := split_sign (PyStr.strip s) in
  let word := PyStr.lower body in
  if String.eqb word "inf" || String.eqb word "infinity"
  then Ok (SpecFloat.S754_infinity negative)
  else if String.eqb word "nan" then Ok SpecFloat.S754_nan
  else
    let (int_digits, after_int) := digitpart_opt body in
    let (frac_digits, after_frac) :=
      match after_int with
      | String c t => if Ascii.eqb c "." then digitpart_opt t
                      else (EmptyString, after_int)
      | EmptyString => (EmptyString, after_int)
      end in
    if PyStr.is_empty int_digits && PyStr.is_empty frac_digits
    then Raise "could not convert string to float"
    else
      match exponent_opt after_frac with
      | Some (e, EmptyString) =>
          Ok (float_of_decimal negative
                (decimal_value 0 (int_digits ++ frac_digits))
                (e - Z.of_nat (String.length frac_digits)))
      | _ => Raise "could not convert string to float"
      end.

(** JSON whitespace. *)
Definition json_ws (c : ascii) : bool :=
  Ascii.eqb c " " || (PyStr.code c =? 9)%nat || (PyStr.code c =? 10)%nat
  || (PyStr.code c =? 13)%nat.

Definition skip_ws (s : string) : string := PyStr.drop_while json_ws s.

Definition hex_value (c : ascii) : option nat :=
  let n := PyStr.code c in
  if ((48 <=? n) && (n <=? 57))%nat then Some (n - 48)
  else if ((97 <=? n) && (n <=? 102))%nat then Some (n - 87)
  else if ((65 <=? n) && (n <=? 70))%nat then Some (n - 55)
  else None.

Definition escape_char (c : ascii) : option ascii :=
  if Ascii.eqb c PyStr.dq then Some PyStr.dq
  else if Ascii.eqb c "\" then Some "\"%char
  else if Ascii.eqb c "/" then Some "/"%char
  else if Ascii.eqb c "b" then Some (ascii_of_nat 8)
  else if Ascii.eqb c "f" then Some (ascii_of_nat 12)
  else if Ascii.eqb c "n" then Some (ascii_of_nat 10)
  else if Ascii.eqb c "r" then Some (ascii_of_nat 13)
  else if Ascii.eqb c "t" then Some (ascii_of_nat 9)
  else None.

(** The body of a string up to its closing quote, and what follows. *)
Fixpoint scan_string (s : string) : result (string * string) :=
  match s with
  | EmptyString => Raise "Unterminated string starting at"
  | String c t =>
      if Ascii.eqb c PyStr.dq then Ok (EmptyString, t)
      else if Ascii.eqb c "\" then
        match t with
        | EmptyString => Raise "Unterminated string starting at"
        | String e t' =>
            if Ascii.eqb e "u" then
              match t' with
              | String h1 (String h2 (String h3 (String h4 t''))) =>
                  match hex_value h1, hex_value h2, hex_value h3, hex_value h4 with
                  | Some a, Some b, Some c', Some d =>
                      if ((a =? 0) && (b =? 0))%nat then
                        match scan_string t'' with
                        | Ok (body, rest) =>
                            Ok (String (ascii_of_nat (16 * c' + d)) body, rest)
                        | Raise x => Raise x
                        end
                      else Raise "code point above U+00FF"
                  | _, _, _, _ => Raise "Invalid \uXXXX escape"
                  end
              | _ => Raise "Invalid \uXXXX escape"
              end
            else
              match escape_char e with
              | Some x =>
                  match scan_string t' with
                  | Ok (body, rest) => Ok (String x body, rest)
                  | Raise y => Raise y
                  end
              | None => Raise "Invalid \escape"
              end
        end
      else if (PyStr.code c <? 32)%nat then Raise "Invalid control character at"
      else
        match scan_string t with
        | Ok (body, rest) => Ok (String c body, rest)
        | Raise x => Raise x
        end
  end.

(** The number pattern of the scanner at the head of [s]: an optional
    minus sign with 0 or a run of digits that does not begin with 0, then
    optionally a point with digits, then optionally an exponent.  The
    result is the text of the three groups and what follows. *)
Definition match_number (s : string) : option (string * string * string * string) :=
  let (minus, body) :=
    match s with
    | String c t => if Ascii.eqb c "-" then ("-", t) else ("", s)
    | EmptyString => ("", s)
    end in
  match body with
  | String c t =>
      if is_digit c then
        let int_digits :=
          if Ascii.eqb c "0" then "0"
          else String c (PyStr.take_while is_digit t) in
        let after_int :=
          if Ascii.eqb c "0" then t else PyStr.drop_while is_digit t in
        let (frac, after_frac) :=
          match after_int with
          | String d t' =>
              if Ascii.eqb d "." && negb (PyStr.is_empty (PyStr.take_while is_digit t'))
              then ("." ++ PyStr.take_while is_digit t', PyStr.drop_while is_digit t')
              else ("", after_int)
          | EmptyString => ("", after_int)
          end in
        let (exp, after_exp) :=
          match after_frac with
          | String d t' =>
              if Ascii.eqb d "e" || Ascii.eqb d "E" then
                let (sgn, t'') :=
                  match t' with
                  | String g u =>
                      if Ascii.eqb g "-" || Ascii.eqb g "+"
                      then (PyStr.s1 g, u) else ("", t')
                  | EmptyString => ("", t')
                  end in
                if PyStr.is_empty (PyStr.take_while is_digit t'')
                then ("", after_frac)
                else (PyStr.s1 d ++ sgn ++ PyStr.take_while is_digit t'',
                      PyStr.drop_while is_digit t'')
              else ("", after_frac)
          | EmptyString => ("", after_frac)
          end in
        Some (minus ++ int_digits, frac, exp, after_exp)
      else None
  | EmptyString => None
  end.

(** A number or one of the constants [NaN], [Infinity], [-Infinity]. *)
Definition parse_number (s : string) : result (pyval * string) :=
  match match_number s with
  | Some (integer, frac, exp, rest) =>
      if PyStr.is_empty frac && PyStr.is_empty exp then
        z <~ int_of_str integer ;; Ok (PInt z, rest)
      else
        f <~ float_of_str (integer ++ frac ++ exp) ;; Ok (PFloat f, rest)
  | None =>
      match PyStr.strip_prefix "NaN" s with
      | Some rest => Ok (PFloat SpecFloat.S754_nan, rest)
      | None =>
          match PyStr.strip_prefix "Infinity" s with
          | Some rest => Ok (PFloat (SpecFloat.S754_infinity false), rest)
          | None =>
              match PyStr.strip_prefix "-Infinity" s with
              | Some rest => Ok (PFloat (SpecFloat.S754_infinity true), rest)
              | None => Raise "Expecting value"
              end
          end
      end
  end.

(** A scalar that is not a string: [null], [true], [false] or a number. *)
Definition parse_literal (s : string) : result (pyval * string) :=
  match PyStr.strip_prefix "null" s with
  | Some rest => Ok (PNone, rest)
  | None =>
      match PyStr.strip_prefix "true" s with
      | Some rest => Ok (PBool true, rest)
      | None =>
          match PyStr.strip_prefix "false" s with
          | Some rest => Ok (PBool false, rest)
          | None => parse_number s
          end
      end
  end.

Definition starts_with (c : ascii) (s : string) : option string :=
  match s with
  | String d t => if Ascii.eqb c d then Some t else None
  | EmptyString => None
  end.

(** The scanner.  [fuel] bounds the calls; [loads] gives twice the length
    of the text, more than any text needs. *)
Fixpoint parse_value (fuel : nat) (s : string) {struct fuel}
  : result (pyval * string) :=
  match fuel with
  | O => Raise "maximum recursion depth exceeded"
  | S fuel' =>
      match s with
      | EmptyString => Raise "Expecting value"
      | String c t =>
          if Ascii.eqb c PyStr.dq then
            r <~ scan_string t ;; Ok (PStr (fst r), snd r)
          else if Ascii.eqb c "{" then
            match starts_with "}" (skip_ws t) with
            | Some rest => Ok (PDict [], rest)
            | None => parse_members fuel' [] (skip_ws t)
            end
          else if Ascii.eqb c "[" then
            match starts_with "]" (skip_ws t) with
            | Some rest => Ok (PList [], rest)
            | None => parse_elements fuel' [] (skip_ws t)
            end
          else parse_literal s
      end
  end

with parse_members (fuel : nat) (acc : PyDict.dict pyval) (s : string)
       {struct fuel} : result (pyval * string) :=
  match fuel with
  | O => Raise "maximum recursion depth exceeded"
  | S fuel' =>
      match starts_with PyStr.dq s with
      | None => Raise "Expecting property name enclosed in double quotes"
      | Some after_quote =>
          k <~ scan_string after_quote ;;
          match starts_with ":" (skip_ws (snd k)) with
          | None => Raise "Expecting ':' delimiter"
          | Some after_colon =>
              v <~ parse_value fuel' (skip_ws after_colon) ;;
              let acc' := PyDict.set (fst k) (fst v) acc in
              match starts_with "}" (skip_ws (snd v)) with
              | Some rest => Ok (PDict acc', rest)
              | None =>
                  match starts_with "," (skip_ws (snd v)) with
                  | Some rest => parse_members fuel' acc' (skip_ws rest)
                  | None => Raise "Expecting ',' delimiter"
                  end
              end
          end
      end
  end

with parse_elements (fuel : nat) (acc : list pyval) (s : string)
       {struct fuel} : result (pyval * string) :=
  match fuel with
  | O => Raise "maximum recursion depth exceeded"
  | S fuel' =>
      v <~ parse_value fuel' s ;;
      let acc' := (acc ++ [fst v])%list in
      match starts_with "]" (skip_ws (snd v)) with
      | Some rest => Ok (PList acc', rest)
      | None =>
          match starts_with "," (skip_ws (snd v)) with
          | Some rest => parse_elements fuel' acc' (skip_ws rest)
          | None => Raise "Expecting ',' delimiter"
          end
      end
  end.

(** [json.loads(s)] *)
Definition loads (s : string) : result pyval :=
  r <~ parse_value (2 * String.length s + 2) (skip_ws s) ;;
  if PyStr.is_empty (skip_ws (snd r)) then Ok (fst r) else Raise "Extra data".

#[export] Instance runtime : PyRuntime := {
  json_loads := loads;
  py_int := int_of_str;
  py_float := float_of_str
}.

End Reference.

(** ** The prompt of [solve_question] *)

(** The context before any file data is appended. *)
Definition base_context (question_data : QuestionData) : string :=
  context_intro (question question_data)
  ++ context_links (links question_data)
  ++ context_instructions.

Definition files_heading : string := "

Processed file data:
".

(** The context sent to the reasoning service, given the files that were
    downloaded. *)
Definition prompt {py : PyRuntime} {dec : Decoders} {World : Type}
    {cap : Capabilities World}
    (question_data : QuestionData) (file_contents : PyDict.dict bytes)
  : result string :=
  match file_contents with
  | [] => Ok (base_context question_data)
  | _ =>
      dumped <~ json_dumps (PDict (process_files file_contents)) ;;
      Ok (base_context question_data ++ files_heading ++ PyStr.take 5000 dumped)
  end.

(** The value of the ["type"] field of a summary. *)
Definition type_tag (t : file_type) : option string :=
  match t with
  | FtPdf => Some "pdf"
  | FtCsv => Some "csv"
  | FtXlsx => Some "excel"
  | FtJson => Some "json"
  | FtTxt => Some "text"
  | FtUnknown => None
  end.

(** The number of newline characters of a text. *)
Fixpoint count_nl (s : string) : nat :=
  match s with
  | EmptyString => 0
  | String c t => (if Ascii.eqb c PyStr.nl then 1 else 0) + count_nl t
  end.

(** ** The solve endpoint ([main.solve_quiz]) *)

(** The body of a request, after validation. *)
Record QuizRequest : Type := {
  req_email : string;
  req_secret : string;
  req_url : string
}.

(** What the handler hands to the framework: a JSON response, or an
    [HTTPException]. *)
Inductive Reply : Type :=
| JSONResponse (status : Z) (body : pyval)
| HTTPException (status : Z) (detail : string).

(** A call of [solver.solve_quiz_chain] added to the background tasks: the
    credentials the solver was built with and the start URL. *)
Record Task : Type := {
  task_email : string;
  task_secret : string;
  task_url : string
}.

Section Endpoint.

(** [YOUR_EMAIL] and [YOUR_SECRET], read from the environment at start. *)
Variables (YOUR_EMAIL YOUR_SECRET : string).

(** The constructor [QuizSolver(email, secret)], which builds the clients
    and may raise. *)
Variable new_solver : string -> string -> result unit.

(** The [try] block of the handler: the reply, or an exception that is not
    an [HTTPException], and the background tasks. *)
Definition solve_quiz_body (request : QuizRequest) (background_tasks : list Task)
  : result Reply * list Task :=
  if negb (String.eqb (req_secret request) YOUR_SECRET) then
    (Ok (HTTPException 403 "Invalid secret"), background_tasks)
  else if negb (String.eqb (req_email request) YOUR_EMAIL) then
    (Ok (HTTPException 403 "Invalid email"), background_tasks)
  else
    match new_solver (req_email request) (req_secret request) with
    | Raise e => (Raise e, background_tasks)
    | Ok _ =>
        (Ok (JSONResponse 200
               (PDict [("status", PStr "success");
                       ("message", PStr "Quiz processing started in background")])),
         (background_tasks
          ++ [{| task_email := req_email request;
                 task_secret := req_secret request;
                 task_url := req_url request |}])%list)
    end.

(** [solve_quiz]: an [HTTPException] is passed on, any other exception
    becomes a 500. *)
Definition solve_quiz (request : QuizRequest) (background_tasks : list Task)
  : Reply * list Task :=
  match solve_quiz_body request background_tasks with
  | (Ok reply, tasks) => (reply, tasks)
  | (Raise e, tasks) => (HTTPException 500 ("Internal error: " ++ e), tasks)
  end.

End Endpoint.

Definition reply_status (r : Reply) : Z :=
  match r with
  | JSONResponse status _ => status
  | HTTPException status _ => status
  end.

(** ** Shapes of records *)

Definition is_solved (r : StepRecord) : bool :=
  match r with
  | StepSolved _ _ _ _ _ => true
  | StepFailed _ _ => false
  end.

Definition record_url (r : StepRecord) : pyval :=
  match r with
  | StepSolved url _ _ _ _ => url
  | StepFailed url _ => url
  end.

Definition excerpt_length (r : StepRecord) : nat :=
  match r with
  | StepSolved _ excerpt _ _ _ => String.length excerpt
  | StepFailed _ _ => 0
  end.

(** ** Counting the records of a trace *)

Definition is_correct (r : StepRecord) : bool :=
  match r with
  | StepSolved _ _ _ correct _ => truthy correct
  | StepFailed _ _ => false
  end.

Definition is_incorrect (r : StepRecord) : bool :=
  match r with
  | StepSolved _ _ _ correct _ => negb (truthy correct)
  | StepFailed _ _ => false
  end.

Definition is_failure (r : StepRecord) : bool :=
  match r with
  | StepSolved _ _ _ _ _ => false
  | StepFailed _ _ => true
  end.

Definition count (f : StepRecord -> bool) (l : list StepRecord) : nat :=
  List.length (filter f l).

(** ** A scripted world *)

(** A quiz server, a renderer and a reasoning service with fixed
    behaviour, for running the driver on concrete chains. *)
Module Demo.

Record World : Type := {
  renderer_up : bool;
  attachments : list Link;
  reply : nat -> result pyval;
  posted : nat
}.

Definition quiz_text : string :=
  "What is 2+2? Post your answer to https://quiz.test/submit".

Definition demo_render (url : pyval) : M World Rendered :=
  fun w =>
    if renderer_up w then
      (Ok {| text_content := quiz_text;
             html_content := "<html><body>" ++ quiz_text ++ "</body></html>";
             page_links := attachments w |}, w)
    else (Raise "net::ERR_CONNECTION_REFUSED", w).

Definition demo_get (url : string) : M World HttpResponse :=
  fun w =>
    if String.eqb url "https://quiz.test/data.csv" then
      (Ok {| status_code := 200; status_error := "";
             content := list_byte_of_string "n
4
";
             body_json := Raise "Expecting value" |}, w)
    else
      (Ok {| status_code := 404; status_error := "Client error '404 Not Found'";
             content := []; body_json := Raise "Expecting value" |}, w).

Definition demo_post (url : string) (payload : pyval) : M World HttpResponse :=
  fun w =>
    (Ok {| status_code := 200; status_error := "";
           content := []; body_json := reply w (posted w) |},
     {| renderer_up := renderer_up w;
        attachments := attachments w;
        reply := reply w;
        posted := S (posted w) |}).

Definition demo_message (context : string) : M World string :=
  fun w => (Ok "2 + 2 = 4.
FINAL_ANSWER: 4", w).

#[export] Instance capabilities : Capabilities World := {
  render := demo_render;
  http_get := demo_get;
  http_post := demo_post;
  create_message := demo_message;
  json_dumps := fun _ => Ok "{}"
}.

#[export] Instance decoders : Decoders := {
  pdf_pages := fun _ => Raise "EOF marker not found";
  read_csv := fun _ =>
    Ok {| csv_shape := PList [PInt 1; PInt 1];
          csv_columns := PList [PStr "n"];
          csv_head := PList [PDict [("n", PInt 4)]];
          csv_numeric_columns := PList [PStr "n"];
          csv_empty := false;
          csv_describe := Ok (PDict []);
          csv_records := PList [PDict [("n", PInt 4)]] |};
  read_excel := fun _ => Raise "File is not a zip file";
  utf8_decode := fun b => Ok (string_of_list_byte b)
}.

(** The endpoint accepts the answer and names no further quiz. *)
Definition single_quiz : World :=
  {| renderer_up := true; attachments := [];
     reply := fun _ => Ok (PDict [("correct", PBool true)]); posted := 0 |}.

(** The renderer fails on every page. *)
Definition renderer_down : World :=
  {| renderer_up := false; attachments := [];
     reply := fun _ => Ok (PDict []); posted := 0 |}.

(** The endpoint rejects every answer and always names a fresh quiz. *)
Definition endless : World :=
  {| renderer_up := true; attachments := [];
     reply := fun n =>
       Ok (PDict [("correct", PBool false);
                  ("url", PStr ("https://quiz.test/q/"
                                ++ NilEmpty.string_of_uint (Nat.to_uint n)))]);
     posted := 0 |}.

(** The endpoint answers with an empty object. *)
Definition silent_endpoint : World :=
  {| renderer_up := true; attachments := [];
     reply := fun _ => Ok (PDict []); posted := 0 |}.

(** A page with a CSV file, a CSV file that cannot be fetched, and a
    file of an unlisted type. *)
Definition three_links : list Link :=
  [ {| href := "https://quiz.test/data.csv"; text := "data" |};
    {| href := "https://quiz.test/missing.csv"; text := "more data" |};
    {| href := "https://quiz.test/notes.bin"; text := "notes" |} ].

Definition with_attachments : World :=
  {| renderer_up := true; attachments := three_links;
     reply := fun _ => Ok (PDict [("correct", PBool true)]); posted := 0 |}.

Definition start : pyval := PStr "https://quiz.test/start".

(** A solver built with fixed credentials, on the reference runtime. *)
Definition solve (start_url : pyval) (w : World) : option (ChainResult * World) :=
  solve_quiz_chain (py := Reference.runtime) "student@quiz.test" "s3cret"
                   start_url w.

End Demo.

(** ** A second scripted world *)

(** One page with a chosen text and no links, and a submission endpoint
    with a chosen status and body. *)
Module Script.

Record World : Type := {
  page_text : string;
  post_status : Z;
  post_body : result pyval;
  posts : nat
}.

Definition script_render (url : pyval) : M World Rendered :=
  fun w =>
    (Ok {| text_content := page_text w;
           html_content := "<html></html>";
           page_links := [] |}, w).

Definition script_get (url : string) : M World HttpResponse :=
  fun w => (Raise "All connection attempts failed", w).

Definition script_post (url : string) (payload : pyval) : M World HttpResponse :=
  fun w =>
    (Ok {| status_code := post_status w;
           status_error := "Server error '500 Internal Server Error'";
           content := [];
           body_json := post_body w |},
     {| page_text := page_text w;
        post_status := post_status w;
        post_body := post_body w;
        posts := S (posts w) |}).

Definition script_message (context : string) : M World string :=
  fun w => (Ok "FINAL_ANSWER: 4", w).

#[export] Instance capabilities : Capabilities World := {
  render := script_render;
  http_get := script_get;
  http_post := script_post;
  create_message := script_message;
  json_dumps := fun _ => Ok "{}"
}.

(** A page that names no submission endpoint. *)
Definition no_endpoint : World :=
  {| page_text := "What is 2+2?"; post_status := 200;
     post_body := Ok (PDict []); posts := 0 |}.

(** An endpoint that answers every submission with a server error. *)
Definition failing_endpoint : World :=
  {| page_text := Demo.quiz_text; post_status := 500;
     post_body := Raise "Expecting value"; posts := 0 |}.

(** An endpoint whose body is a JSON array. *)
Definition array_endpoint : World :=
  {| page_text := Demo.quiz_text; post_status := 200;
     post_body := Ok (PList [PBool true]); posts := 0 |}.

(** An endpoint that accepts the answer and gives a reason. *)
Definition final_endpoint : World :=
  {| page_text := Demo.quiz_text; post_status := 200;
     post_body := Ok (PDict [("correct", PBool true); ("reason", PStr "ok")]);
     posts := 0 |}.

Definition solve (start_url : pyval) (w : World) : option (ChainResult * World) :=
  solve_quiz_chain (py := Reference.runtime) (dec := Demo.decoders)
                   "student@quiz.test" "s3cret" start_url w.

End Script.

(** ** Predicates of the statements *)

(** [try: body finally: cleanup] *)
Definition finally_ {World A : Type} (body : M World A) (cleanup : M World unit)
  : M World A :=
  fun w =>
    match body w with
    | (r, w1) =>
        match cleanup w1 with
        | (Raise e, w2) => (Raise e, w2)
        | (Ok _, w2) => (r, w2)
        end
    end.

(** A session in which nothing happens between the launch of the browser
    and its closing, and which returns [r]. *)
Definition idle_session {World : Type} {ses : Session World} (r : ChainResult)
  : M World ChainResult :=
  _ <- playwright_start ;;
  _ <- finally_ (_ <- chromium_launch ;; browser_close) playwright_stop ;;
  _ <- client_aclose ;;
  ret r.

(** A browser and a client that start and stop without any effect. *)
Module Quiet.

#[export] Instance session : Session Demo.World := {
  playwright_start := ret tt;
  chromium_launch := ret tt;
  browser_close := ret tt;
  playwright_stop := ret tt;
  client_aclose := ret tt
}.

End Quiet.

(** The attachment links of a page that are fetched with success, in the
    order of the page, each with the bytes received, and the world after
    the last request. *)
Fixpoint successful_downloads {World : Type} {cap : Capabilities World}
    (todo : list Link) (w : World) : list (string * bytes) * World :=
  match todo with
  | [] => ([], w)
  | link :: rest =>
      if is_attachment link then
        match download_file (href link) w with
        | (Ok data, w') =>
            let (items, w'') := successful_downloads rest w' in
            ((href link, data) :: items, w'')
        | (Raise _, w') => successful_downloads rest w'
        end
      else successful_downloads rest w
  end.

(** [file_contents[url] = data] for each download, in their order. *)
Definition store_downloads (items : list (string * bytes))
    (file_contents : PyDict.dict bytes) : PyDict.dict bytes :=
  fold_left (fun fc item => PyDict.set (fst item) (snd item) fc)
            items file_contents.

(** The bytes received last for [url]. *)
Fixpoint latest (url : string) (items : list (string * bytes)) : option bytes :=
  match items with
  | [] => None
  | (u, data) :: rest =>
      match latest url rest with
      | Some later => Some later
      | None => if String.eqb url u then Some data else None
      end
  end.

(** What follows a maximal run: nothing, or a character outside the class. *)
Definition stops (f : ascii -> bool) (rest : string) : Prop :=
  match rest with
  | EmptyString => True
  | String c _ => f c = false
  end.

(** The pattern matches at the head of [s] with group 1 equal to [url]:
    the phrase in this very spelling, a scheme, and a run of one or more
    characters that are neither whitespace nor a closing parenthesis,
    which nothing of that kind follows. *)
Definition submit_match (s url : string) : Prop :=
  exists scheme run rest,
    (scheme = "http://" \/ scheme = "https://")
    /\ s = submit_phrase ++ scheme ++ run ++ rest
    /\ run <> ""
    /\ PyStr.forallb url_char run = true
    /\ stops url_char rest
    /\ url = scheme ++ run.

(** The pattern matches nowhere in [text]. *)
Definition no_submit_match (text : string) : Prop :=
  forall pre post url, text = pre ++ post -> ~ submit_match post url.

(** [s] ends in [suffix]. *)
Definition ends_with (suffix s : string) : Prop :=
  exists pre, s = pre ++ suffix.

(** [needle] occurs somewhere in [s]. *)
Definition occurs_in (needle s : string) : Prop :=
  exists pre post, s = pre ++ needle ++ post.

(** The marker, in any letter case, is at the head of [s] and at least one
    character follows it; [a] is what follows, without the whitespace after
    the marker, up to the next newline, and trimmed. *)
Definition answer_after (s a : string) : Prop :=
  exists m rest,
    s = m ++ rest
    /\ PyStr.lower m = PyStr.lower final_marker
    /\ rest <> ""
    /\ a = PyStr.strip (PyStr.take_while not_nl (PyStr.lstrip rest)).

(** No marker in [response] is followed by a character. *)
Definition no_answer_marker (response : string) : Prop :=
  forall pre post a, response = pre ++ post -> ~ answer_after post a.

(** The last non-blank line, trimmed; the trimmed text when every line is
    blank. *)
Definition last_nonblank_line (response : string) : string :=
  match nonblank_lines response with
  | [] => PyStr.strip response
  | lines => last lines ""
  end.

(** The text of the JSON object [{"a":1}]. *)
Definition object_a1 : string :=
  "{" ++ PyStr.s1 PyStr.dq ++ "a" ++ PyStr.s1 PyStr.dq ++ ":1}".

(** * Properties *)

(** ** Strings *)

Lemma append_nil_r (s : string) : s ++ "" = s.
Proof. induction s as [|c s IH]; simpl; [reflexivity | now rewrite IH]. Qed.

Lemma append_assoc (a b c : string) : (a ++ b) ++ c = a ++ (b ++ c).
Proof. induction a as [|x a IH]; simpl; [reflexivity | now rewrite IH]. Qed.

Lemma length_append (a b : string) :
  String.length (a ++ b) = String.length a + String.length b.
Proof. induction a as [|x a IH]; simpl; [reflexivity | now rewrite IH]. Qed.

Lemma append_inv_head (a b c : string) : a ++ b = a ++ c -> b = c.
Proof.
  induction a as [|x a IH]; simpl; intros E; [exact E |].
  injection E as E. auto.
Qed.

Lemma strip_prefix_Some (p s r : string) :
  PyStr.strip_prefix p s = Some r <-> s = p ++ r.
Proof.
  revert s; induction p as [|a p IH]; intros s; simpl.
  - split; [intros [= ->] | intros ->]; reflexivity.
  - destruct s as [|b s].
    + split; discriminate.
    + destruct (Ascii.eqb_spec a b) as [->|N].
      * rewrite IH. split; [intros -> | intros [= ->]]; reflexivity.
      * split; [discriminate | intros [= E _]; now elim N].
Qed.

Lemma take_drop_while (f : ascii -> bool) (s : string) :
  s = PyStr.take_while f s ++ PyStr.drop_while f s.
Proof.
  induction s as [|c s IH]; simpl; [reflexivity |].
  destruct (f c); simpl; [now rewrite <- IH | reflexivity].
Qed.

Lemma take_while_forallb (f : ascii -> bool) (s : string) :
  PyStr.forallb f (PyStr.take_while f s) = true.
Proof.
  induction s as [|c s IH]; simpl; [reflexivity |].
  destruct (f c) eqn:E; simpl; [now rewrite E | reflexivity].
Qed.

Lemma drop_while_stops (f : ascii -> bool) (s : string) :
  stops f (PyStr.drop_while f s).
Proof.
  induction s as [|c s IH]; simpl; [exact I |].
  destruct (f c) eqn:E; simpl; [exact IH | exact E].
Qed.

Lemma take_while_maximal (f : ascii -> bool) (run rest : string) :
  PyStr.forallb f run = true -> stops f rest ->
  PyStr.take_while f (run ++ rest) = run.
Proof.
  induction run as [|c run IH]; simpl; intros A S.
  - destruct rest as [|c t]; simpl in *; [reflexivity | now rewrite S].
  - apply andb_true_iff in A as [A1 A2]. rewrite A1. now rewrite IH.
Qed.

Lemma is_empty_true (s : string) : PyStr.is_empty s = true <-> s = "".
Proof. destruct s; simpl; split; congruence. Qed.

(** ** The Submit-URL extractor *)

Lemma match_scheme_Some (s scheme rest : string) :
  match_scheme s = Some (scheme, rest) <->
  (scheme = "http://" \/ scheme = "https://") /\ s = scheme ++ rest.
Proof.
  unfold match_scheme.
  destruct (PyStr.strip_prefix "https://" s) as [r|] eqn:E1.
  - apply strip_prefix_Some in E1. subst s. split.
    + intros [= <- <-]. auto.
    + intros [[-> | ->] E]; [discriminate E |].
      apply (append_inv_head "https://") in E. now subst.
  - destruct (PyStr.strip_prefix "http://" s) as [r|] eqn:E2.
    + apply strip_prefix_Some in E2. subst s. split.
      * intros [= <- <-]. auto.
      * intros [[-> | ->] E].
        -- apply (append_inv_head "http://") in E. now subst.
        -- exfalso. assert (X : PyStr.strip_prefix "https://" ("http://" ++ r) = Some rest)
             by now apply strip_prefix_Some.
           congruence.
    + split; [discriminate |].
      intros [[-> | ->] ->].
      * assert (X : PyStr.strip_prefix "http://" ("http://" ++ rest) = Some rest)
          by now apply strip_prefix_Some.
        congruence.
      * assert (X : PyStr.strip_prefix "https://" ("https://" ++ rest) = Some rest)
          by now apply strip_prefix_Some.
        congruence.
Qed.

Lemma match_submit_here_spec (s url : string) :
  match_submit_here s = Some url <-> submit_match s url.
Proof.
  unfold match_submit_here, submit_match. split.
  - destruct (PyStr.strip_prefix submit_phrase s) as [r|] eqn:E1; [|discriminate].
    apply strip_prefix_Some in E1.
    destruct (match_scheme r) as [[scheme r']|] eqn:E2; [|discriminate].
    apply match_scheme_Some in E2 as [Hs ->].
    destruct (PyStr.is_empty (PyStr.take_while url_char r')) eqn:E3; [discriminate|].
    intros [= <-].
    exists scheme, (PyStr.take_while url_char r'), (PyStr.drop_while url_char r').
    repeat split.
    + exact Hs.
    + now rewrite <- take_drop_while.
    + intros Z. apply is_empty_true in Z. congruence.
    + apply take_while_forallb.
    + apply drop_while_stops.
  - intros (scheme & run & rest & Hs & -> & Hne & Hall & Hstop & ->).
    assert (E1 : PyStr.strip_prefix submit_phrase
                   (submit_phrase ++ scheme ++ run ++ rest)
                 = Some (scheme ++ run ++ rest)) by now apply strip_prefix_Some.
    rewrite E1.
    assert (E2 : match_scheme (scheme ++ run ++ rest) = Some (scheme, run ++ rest))
      by (apply match_scheme_Some; auto).
    rewrite E2. rewrite take_while_maximal by assumption.
    destruct run; [congruence | reflexivity].
Qed.

Lemma extract_submit_url_None (text : string) :
  extract_submit_url text = None <-> no_submit_match text.
Proof.
  unfold no_submit_match. induction text as [|c t IH]; simpl.
  - split.
    + intros E pre post url Hsplit M.
      destruct pre; simpl in Hsplit; [|discriminate]. subst post.
      apply match_submit_here_spec in M. discriminate.
    + reflexivity.
  - destruct (match_submit_here (String c t)) as [u|] eqn:E.
    + split; [discriminate |].
      intros N. exfalso. apply (N "" (String c t) u); [reflexivity |].
      now apply match_submit_here_spec.
    + rewrite IH. split.
      * intros N pre post url Hsplit M.
        destruct pre as [|x pre]; simpl in Hsplit.
        -- subst post. apply match_submit_here_spec in M. congruence.
        -- injection Hsplit as -> ->. exact (N pre post url eq_refl M).
      * intros N pre post url -> M.
        exact (N (String c pre) post url eq_refl M).
Qed.

Lemma extract_submit_url_Some (text url : string) :
  extract_submit_url text = Some url <->
  exists pre post,
    text = pre ++ post /\ submit_match post url /\
    forall pre' post' url',
      text = pre' ++ post' -> String.length pre' < String.length pre ->
      ~ submit_match post' url'.
Proof.
  revert url. induction text as [|c t IH]; intros url.
  - simpl. split; [discriminate |].
    intros (pre & post & E & M & _).
    destruct pre; simpl in E; [|discriminate]. subst post.
    apply match_submit_here_spec in M. discriminate.
  - cbn [extract_submit_url].
    destruct (match_submit_here (String c t)) as [u|] eqn:E.
    + split.
      * intros [= <-]. exists "", (String c t). repeat split.
        -- now apply match_submit_here_spec.
        -- intros pre' post' url' _ L. simpl in L. lia.
      * intros (pre & post & Hsplit & M & First).
        destruct pre as [|x pre]; simpl in Hsplit.
        -- subst post. apply match_submit_here_spec in M. congruence.
        -- exfalso. apply (First "" (String c t) u); simpl; [reflexivity | lia |].
           now apply match_submit_here_spec.
    + rewrite IH. split.
      * intros (pre & post & -> & M & First).
        exists (String c pre), post. repeat split; [exact M |].
        intros pre' post' url' Hsplit L M'.
        destruct pre' as [|x pre']; simpl in Hsplit.
        -- subst post'. apply match_submit_here_spec in M'. congruence.
        -- injection Hsplit as -> Hsplit. simpl in L.
           apply (First pre' post' url' Hsplit); [lia | exact M'].
      * intros (pre & post & Hsplit & M & First).
        destruct pre as [|x pre]; simpl in Hsplit.
        -- subst post. apply match_submit_here_spec in M. congruence.
        -- injection Hsplit as -> ->. exists pre, post. repeat split; [exact M |].
           intros pre' post' url' E' L M'.
           apply (First (String x pre') post' url');
             [simpl; now rewrite E' | simpl; lia | exact M'].
Qed.

(** C3 (amended): the extractor returns group 1 of the leftmost match of
    the phrase [Post your answer to ] in exactly this spelling followed
    by [http://] or [https://] and a maximal non-empty run of characters
    that are neither whitespace nor a closing parenthesis (any other
    punctuation belongs to the run); it returns nothing exactly when the
    pattern matches nowhere. *)
Theorem extract_submit_url_leftmost_match (text : string) :
  match extract_submit_url text with
  | Some url =>
      exists pre post,
        text = pre ++ post /\ submit_match post url /\
        forall pre' post' url',
          text = pre' ++ post' -> String.length pre' < String.length pre ->
          ~ submit_match post' url'
  | None => no_submit_match text
  end.
Proof.
  destruct (extract_submit_url text) as [url|] eqn:E.
  - now apply extract_submit_url_Some.
  - now apply extract_submit_url_None.
Qed.

(** C3 (as stated) fails: the phrase in another spelling is not found
    although it is there when case is ignored, and a full stop after the
    URL is returned as part of it. *)
Lemma extract_submit_url_case_and_punctuation :
  PyStr.strip_prefix_ci submit_phrase "post your answer to https://x.y/z"
    = Some "https://x.y/z"
  /\ extract_submit_url "post your answer to https://x.y/z" = None
  /\ extract_submit_url "Post your answer to https://x.y/z." = Some "https://x.y/z.".
Proof. repeat split. Qed.

(** ** The attachment type classifier *)

Lemma prefix_Some (p s : string) :
  prefix p s = true <-> exists r, s = p ++ r.
Proof.
  revert s; induction p as [|a p IH]; intros s.
  - destruct s; simpl; split; eauto.
  - destruct s as [|b s]; simpl.
    + split; [discriminate | intros [r E]; discriminate].
    + destruct (ascii_dec a b) as [->|N].
      * rewrite IH. split; intros [r E]; exists r; [now subst | now injection E].
      * split; [discriminate | intros [r [= E _]]; now elim N].
Qed.

Lemma contains_occurs (needle s : string) :
  PyStr.contains needle s = true <-> occurs_in needle s.
Proof.
  unfold occurs_in. induction s as [|c s IH]; cbn [PyStr.contains].
  - rewrite orb_false_r, prefix_Some. split.
    + intros [r E]. exists "", r. exact E.
    + intros (pre & post & E). destruct pre; simpl in E; [eauto | discriminate].
  - rewrite orb_true_iff, prefix_Some, IH. split.
    + intros [[r E] | (pre & post & E)].
      * exists "", r. exact E.
      * exists (String c pre), post. simpl. now rewrite E.
    + intros (pre & post & E). destruct pre as [|x pre]; simpl in E.
      * left. eauto.
      * right. injection E as _ E. eauto.
Qed.

Lemma ends_with_contains (suffix s : string) :
  ends_with suffix s -> PyStr.contains suffix s = true.
Proof.
  intros [pre ->]. apply contains_occurs. exists pre, "".
  now rewrite append_nil_r.
Qed.

Lemma contains_false (needle s : string) :
  PyStr.contains needle s = false <-> ~ occurs_in needle s.
Proof.
  rewrite <- contains_occurs. destruct (PyStr.contains needle s); split; congruence.
Qed.

Ltac by_occurrence :=
  repeat match goal with
         | H : PyStr.contains _ _ = true |- _ => apply contains_occurs in H
         | H : PyStr.contains _ _ = false |- _ => apply contains_false in H
         end.

(** C6 (amended): the classifier looks for the suffixes anywhere in the
    lowercased URL, in the order .pdf, .csv, .xlsx/.xls, .json, .txt, and
    the first that occurs decides; a URL in which none occurs is unknown and
    gets the summary [{"error": "Unknown file type"}].  Hence a URL ending
    in .pdf is a pdf, and a URL ending in any listed suffix is not unknown. *)
Theorem detect_file_type_first_occurrence
    {py : PyRuntime} {dec : Decoders} (url : string) :
  let u := PyStr.lower url in
  (detect_file_type url = FtPdf <-> occurs_in ".pdf" u)
  /\ (detect_file_type url = FtCsv <->
      ~ occurs_in ".pdf" u /\ occurs_in ".csv" u)
  /\ (detect_file_type url = FtXlsx <->
      ~ occurs_in ".pdf" u /\ ~ occurs_in ".csv" u
      /\ (occurs_in ".xlsx" u \/ occurs_in ".xls" u))
  /\ (detect_file_type url = FtJson <->
      ~ occurs_in ".pdf" u /\ ~ occurs_in ".csv" u
      /\ ~ occurs_in ".xlsx" u /\ ~ occurs_in ".xls" u
      /\ occurs_in ".json" u)
  /\ (detect_file_type url = FtTxt <->
      ~ occurs_in ".pdf" u /\ ~ occurs_in ".csv" u
      /\ ~ occurs_in ".xlsx" u /\ ~ occurs_in ".xls" u
      /\ ~ occurs_in ".json" u /\ occurs_in ".txt" u)
  /\ (detect_file_type url = FtUnknown <->
      forall suffix, In suffix [".pdf"; ".csv"; ".xlsx"; ".xls"; ".json"; ".txt"] ->
                     ~ occurs_in suffix u)
  /\ (ends_with ".pdf" u -> detect_file_type url = FtPdf)
  /\ (forall suffix,
        In suffix [".pdf"; ".csv"; ".xlsx"; ".xls"; ".json"; ".txt"] ->
        ends_with suffix u -> detect_file_type url <> FtUnknown)
  /\ (forall content,
        detect_file_type url = FtUnknown ->
        or_error_summary (decode_resource url content)
        = error_summary "Unknown file type").
Proof.
  intros u.
  assert (U : detect_file_type url = FtUnknown <->
              forall suffix,
                In suffix [".pdf"; ".csv"; ".xlsx"; ".xls"; ".json"; ".txt"] ->
                ~ occurs_in suffix u).
  { unfold detect_file_type. fold u.
    destruct (PyStr.contains ".pdf" u) eqn:Epdf;
      [| destruct (PyStr.contains ".csv" u) eqn:Ecsv;
         [| destruct (PyStr.contains ".xlsx" u) eqn:Exlsx;
            [| destruct (PyStr.contains ".xls" u) eqn:Exls;
               [| destruct (PyStr.contains ".json" u) eqn:Ejson;
                  [| destruct (PyStr.contains ".txt" u) eqn:Etxt]]]]];
      cbn [orb]; by_occurrence;
      (split;
       [ try discriminate; intros _ suffix Hin; simpl in Hin;
         repeat (destruct Hin as [<- | Hin]; [assumption |]); contradiction
       | intros N; try reflexivity; exfalso;
         match goal with
         | O : occurs_in ?x u |- _ => apply (N x); [simpl; tauto | exact O]
         end ]). }
  repeat match goal with |- _ /\ _ => split end;
    try exact U;
    try (unfold detect_file_type; fold u;
         destruct (PyStr.contains ".pdf" u) eqn:Epdf;
         destruct (PyStr.contains ".csv" u) eqn:Ecsv;
         destruct (PyStr.contains ".xlsx" u) eqn:Exlsx;
         destruct (PyStr.contains ".xls" u) eqn:Exls;
         destruct (PyStr.contains ".json" u) eqn:Ejson;
         destruct (PyStr.contains ".txt" u) eqn:Etxt;
         cbn [orb]; by_occurrence;
         split; intros; try discriminate; try reflexivity; tauto).
  - intros E. apply ends_with_contains in E.
    unfold detect_file_type. fold u. now rewrite E.
  - intros suffix Hin E Unk. apply ends_with_contains, contains_occurs in E.
    destruct U as [U _]. exact (U Unk suffix Hin E).
  - intros content Unk. unfold decode_resource. now rewrite Unk.
Qed.

Lemma endswith_spec (suffix s : string) :
  PyStr.endswith suffix s = true <-> ends_with suffix s.
Proof.
  unfold ends_with. induction s as [|c t IH]; cbn [PyStr.endswith].
  - rewrite orb_false_r, String.eqb_eq. split.
    + intros ->. now exists "".
    + intros [pre E]. destruct pre; simpl in E; [auto | discriminate].
  - rewrite orb_true_iff, String.eqb_eq, IH. split.
    + intros [-> | [pre ->]]; [now exists "" | now exists (String c pre)].
    + intros [pre E]. destruct pre as [|x pre]; simpl in E; [now left |].
      injection E as _ E. right. eauto.
Qed.

(** C6 (as stated) fails in both directions: a URL that ends in none of the
    suffixes is classified as a pdf because [.pdf] occurs inside it, and a
    URL that ends in [.csv] is classified as a pdf for the same reason. *)
Lemma detect_file_type_not_by_suffix :
  detect_file_type "https://h.test/report.pdf?page=2" = FtPdf
  /\ (forall suffix,
         In suffix [".pdf"; ".csv"; ".xlsx"; ".xls"; ".json"; ".txt"] ->
         ~ ends_with suffix "https://h.test/report.pdf?page=2")
  /\ detect_file_type "https://files.pdf.test/data.csv" = FtPdf
  /\ ends_with ".csv" "https://files.pdf.test/data.csv".
Proof.
  split; [reflexivity |]. split; [| split; [reflexivity |]].
  - intros suffix I E. apply endswith_spec in E. simpl in I.
    repeat (destruct I as [<- | I]; [vm_compute in E; discriminate |]).
    contradiction.
  - apply endswith_spec. reflexivity.
Qed.

(** ** The Answer Extractor *)

Lemma space_not_nl (c : ascii) : PyStr.is_space c = false -> not_nl c = true.
Proof.
  unfold not_nl. destruct (Ascii.eqb_spec c PyStr.nl) as [->|]; [|reflexivity].
  discriminate.
Qed.

Lemma strip_space (c : ascii) :
  PyStr.is_space c = true -> PyStr.strip (String c "") = "".
Proof. intros E. unfold PyStr.strip. simpl. now rewrite E. Qed.

Lemma match_answer_tail_spec (rest : string) :
  rest <> "" ->
  exists g, match_answer_tail rest = Some g
            /\ PyStr.strip g
               = PyStr.strip (PyStr.take_while not_nl (PyStr.lstrip rest)).
Proof.
  induction rest as [|c t IH]; [congruence |]. intros _.
  cbn [match_answer_tail PyStr.lstrip].
  destruct (PyStr.is_space c) eqn:Sp.
  - destruct t as [|d t'].
    + simpl. eexists. split; [reflexivity |]. now apply strip_space.
    + destruct (IH ltac:(discriminate)) as (g & -> & E). eauto.
  - simpl. rewrite (space_not_nl c Sp). eauto.
Qed.

Lemma lower_length (s : string) : String.length (PyStr.lower s) = String.length s.
Proof. induction s as [|c s IH]; simpl; [reflexivity | now rewrite IH]. Qed.

Lemma strip_prefix_ci_Some (p s rest : string) :
  PyStr.strip_prefix_ci p s = Some rest <->
  exists m, s = m ++ rest /\ PyStr.lower m = PyStr.lower p.
Proof.
  revert s; induction p as [|a p IH]; intros s; simpl.
  - split.
    + intros [= ->]. now exists "".
    + intros (m & -> & E). destruct m; [reflexivity | discriminate].
  - destruct s as [|b s].
    + split; [discriminate |].
      intros (m & E & L). destruct m; simpl in *; discriminate.
    + destruct (Ascii.eqb_spec (PyStr.lower_char a) (PyStr.lower_char b)) as [Eab|N].
      * rewrite IH. split.
        -- intros (m & -> & L). exists (String b m). simpl. now rewrite L, Eab.
        -- intros (m & E & L). destruct m as [|x m]; simpl in *; [discriminate |].
           injection E as -> ->. injection L as _ L. eauto.
      * split; [discriminate |].
        intros (m & E & L). destruct m as [|x m]; simpl in *; [discriminate |].
        injection E as -> _. injection L as L _. now elim N.
Qed.

Lemma match_final_here_spec (s : string) :
  match match_final_here s with
  | Some g => answer_after s (PyStr.strip g)
  | None => forall a, ~ answer_after s a
  end.
Proof.
  unfold match_final_here, answer_after.
  destruct (PyStr.strip_prefix_ci final_marker s) as [rest|] eqn:E.
  - apply strip_prefix_ci_Some in E as (m & -> & L).
    destruct rest as [|c t].
    + cbn [match_answer_tail]. intros a (m' & rest' & E' & L' & Ne & _).
      assert (Len : String.length m' = String.length m).
      { rewrite <- (lower_length m'), <- (lower_length m). congruence. }
      apply (f_equal String.length) in E'. rewrite !length_append in E'.
      destruct rest'; [congruence | simpl in E'; lia].
    + destruct (@match_answer_tail_spec (String c t) ltac:(discriminate))
        as (g & -> & Eg).
      exists m, (String c t). repeat split; [exact L | discriminate | exact Eg].
  - intros a (m & rest & -> & L & _).
    assert (X : PyStr.strip_prefix_ci final_marker (m ++ rest) = Some rest)
      by (apply strip_prefix_ci_Some; eauto).
    congruence.
Qed.

Lemma answer_after_unique (s a b : string) :
  answer_after s a -> answer_after s b -> a = b.
Proof.
  intros (m & r & -> & L & _ & ->) (m' & r' & E & L' & _ & ->).
  assert (Len : String.length m = String.length m').
  { rewrite <- (lower_length m), <- (lower_length m'). congruence. }
  assert (r = r'); [| now subst].
  clear L L'. revert m' E Len. induction m as [|x m IH]; intros [|y m'] E Len;
    simpl in *; try discriminate; [exact E |].
  injection E as _ E. injection Len as Len. eauto.
Qed.

Lemma search_final_answer_None (response : string) :
  search_final_answer response = None <-> no_answer_marker response.
Proof.
  unfold no_answer_marker. induction response as [|c t IH];
    cbn [search_final_answer].
  - pose proof (match_final_here_spec "") as M.
    destruct (match_final_here "") as [g|].
    + split; [discriminate |]. intros N. elim (N "" "" _ eq_refl M).
    + split; [| reflexivity]. intros _ pre post a E.
      destruct pre; simpl in E; [| discriminate]. subst post. apply M.
  - pose proof (match_final_here_spec (String c t)) as M.
    destruct (match_final_here (String c t)) as [g|].
    + split; [discriminate |]. intros N. elim (N "" _ _ eq_refl M).
    + rewrite IH. split.
      * intros N pre post a E. destruct pre as [|x pre]; simpl in E.
        -- subst post. apply M.
        -- injection E as _ E. eauto.
      * intros N pre post a ->. exact (N (String c pre) post a eq_refl).
Qed.

Lemma search_final_answer_Some (response g : string) :
  search_final_answer response = Some g ->
  exists pre post,
    response = pre ++ post /\ answer_after post (PyStr.strip g) /\
    forall pre' post' a',
      response = pre' ++ post' -> String.length pre' < String.length pre ->
      ~ answer_after post' a'.
Proof.
  revert g. induction response as [|c t IH]; intros g;
    cbn [search_final_answer].
  - pose proof (match_final_here_spec "") as M.
    destruct (match_final_here "") as [g'|]; [| discriminate].
    intros [= <-]. exists "", "". repeat split; [exact M |].
    intros ? ? ? _ L. simpl in L. lia.
  - pose proof (match_final_here_spec (String c t)) as M.
    destruct (match_final_here (String c t)) as [g'|].
    + intros [= <-]. exists "", (String c t). repeat split; [exact M |].
      intros ? ? ? _ L. simpl in L. lia.
    + intros E. destruct (IH g E) as (pre & post & -> & A & First).
      exists (String c pre), post. repeat split; [exact A |].
      intros pre' post' a' E' L. destruct pre' as [|x pre']; simpl in E'.
      * subst post'. apply M.
      * injection E' as _ E'. simpl in L. apply (First pre' post' a' E'). lia.
Qed.

Lemma py_last_cons (A : Type) (x : A) (l : list A) (d : A) :
  py_last (x :: l) = Ok (last (x :: l) d).
Proof.
  unfold py_last.
  destruct (rev (x :: l)) as [|y r] eqn:E.
  - apply (f_equal (@List.length A)) in E. rewrite length_rev in E. discriminate.
  - f_equal. apply (f_equal (@rev A)) in E. rewrite rev_involutive in E.
    rewrite E. simpl. now rewrite last_last.
Qed.

(** Every reply has exactly one captured string: the answer after the
    leftmost marker that a character follows, or else the last non-blank
    line. *)
Lemma captured_answer_cases (response : string) :
  (exists pre post a,
      response = pre ++ post /\ answer_after post a
      /\ (forall pre' post' a',
             response = pre' ++ post' ->
             String.length pre' < String.length pre ->
             ~ answer_after post' a')
      /\ captured_answer response = Ok a)
  \/ (no_answer_marker response
      /\ captured_answer response = Ok (last_nonblank_line response)).
Proof.
  unfold captured_answer, last_nonblank_line.
  destruct (search_final_answer response) as [g|] eqn:E.
  - left. destruct (search_final_answer_Some _ E) as (pre & post & Hs & A & F).
    exists pre, post, (PyStr.strip g). auto.
  - right. split; [now apply search_final_answer_None |].
    destruct (nonblank_lines response) as [|l ls]; [reflexivity |].
    apply py_last_cons.
Qed.

Lemma classify_answer_order {py : PyRuntime} (answer : string) :
  classify_answer answer
  = match json_loads answer with
    | Ok v => Ok v
    | Raise _ =>
        match numeric_parse answer with
        | Ok n => Ok n
        | Raise _ =>
            if is_bool_word answer
            then Ok (PBool (String.eqb (PyStr.lower answer) "true"))
            else Ok (PStr answer)
        end
    end.
Proof.
  unfold classify_answer, try_pass.
  destruct (json_loads answer); [reflexivity |].
  destruct (numeric_parse answer); reflexivity.
Qed.

Lemma classify_answer_total {py : PyRuntime} (answer : string) :
  exists v, classify_answer answer = Ok v.
Proof.
  rewrite classify_answer_order.
  destruct (json_loads answer); [eauto |].
  destruct (numeric_parse answer); [eauto |].
  destruct (is_bool_word answer); eauto.
Qed.

(** C5 (amended): the extractor captures the text after the leftmost marker
    (in any letter case) that at least one character follows -- without the
    whitespace after the marker, newlines included, up to the next newline
    or the end, trimmed -- and the last non-blank line when no marker is
    followed by a character, in particular when there is none.  The captured
    string is classified by the JSON parse first, then the numeric parse,
    then the boolean words, then as a string.  With a JSON decoder that
    reads 42, true and the object and refuses [hello world], as [int] does,
    the four replies yield 42, true, the object with a = 1 and the string. *)
Theorem answer_extractor_captures_and_classifies {py : PyRuntime} (response : string)
    (J42 : json_loads "42" = Ok (PInt 42))
    (Jtrue : json_loads "true" = Ok (PBool true))
    (Jobj : json_loads object_a1 = Ok (PDict [("a", PInt 1)]))
    (Jhello : exists e, json_loads "hello world" = Raise e)
    (Ihello : exists e, py_int "hello world" = Raise e) :
  (exists answer,
      captured_answer response = Ok answer
      /\ extract_final_answer response = classify_answer answer
      /\ ((exists pre post,
              response = pre ++ post /\ answer_after post answer
              /\ forall pre' post' a',
                  response = pre' ++ post' ->
                  String.length pre' < String.length pre ->
                  ~ answer_after post' a')
          \/ (no_answer_marker response
              /\ answer = last_nonblank_line response)))
  /\ (forall answer,
         classify_answer answer
         = match json_loads answer with
           | Ok v => Ok v
           | Raise _ =>
               match numeric_parse answer with
               | Ok n => Ok n
               | Raise _ =>
                   if is_bool_word answer
                   then Ok (PBool (String.eqb (PyStr.lower answer) "true"))
                   else Ok (PStr answer)
               end
           end)
  /\ extract_final_answer "FINAL_ANSWER: 42" = Ok (PInt 42)
  /\ extract_final_answer "FINAL_ANSWER: true" = Ok (PBool true)
  /\ extract_final_answer ("FINAL_ANSWER: " ++ object_a1)
     = Ok (PDict [("a", PInt 1)])
  /\ extract_final_answer "FINAL_ANSWER: hello world" = Ok (PStr "hello world").
Proof.
  split; [| split; [apply classify_answer_order |]].
  - destruct (captured_answer_cases response)
      as [(pre & post & a & E & A & F & C) | (N & C)].
    + exists a. unfold extract_final_answer. rewrite C. eauto 8.
    + exists (last_nonblank_line response). unfold extract_final_answer.
      rewrite C. auto.
  - assert (C42 : captured_answer "FINAL_ANSWER: 42" = Ok "42") by reflexivity.
    assert (Ctrue : captured_answer "FINAL_ANSWER: true" = Ok "true") by reflexivity.
    assert (Cobj : captured_answer ("FINAL_ANSWER: " ++ object_a1) = Ok object_a1)
      by reflexivity.
    assert (Chello : captured_answer "FINAL_ANSWER: hello world" = Ok "hello world")
      by reflexivity.
    unfold extract_final_answer.
    rewrite C42, Ctrue, Cobj, Chello, !classify_answer_order, J42, Jtrue, Jobj.
    destruct Jhello as [e1 ->]. unfold numeric_parse.
    change (PyStr.contains "." "hello world") with false. cbv iota.
    destruct Ihello as [e2 ->].
    repeat split.
Qed.

(** The reference runtime meets the assumptions on the decoder, here for a
    reply that reasons before it answers. *)
Lemma answer_extractor_reference_reply :
  exists answer,
    captured_answer "2 + 2 = 4.
FINAL_ANSWER: 4" = Ok answer
    /\ extract_final_answer (py := Reference.runtime) "2 + 2 = 4.
FINAL_ANSWER: 4" = classify_answer (py := Reference.runtime) answer.
Proof.
  destruct (@answer_extractor_captures_and_classifies Reference.runtime
              "2 + 2 = 4.
FINAL_ANSWER: 4")
    as [(answer & C & E & _) _];
    [reflexivity | reflexivity | reflexivity
     | eexists; reflexivity | eexists; reflexivity |].
  exists answer. split; [exact C | exact E].
Defined.

(** C5 (as stated) fails: the marker is there, nothing follows it, and the
    captured string is not the empty text after the marker but the last
    non-blank line, the marker itself. *)
Lemma marker_at_the_end_is_not_skipped :
  PyStr.strip_prefix_ci final_marker "FINAL_ANSWER:" = Some ""
  /\ captured_answer "The result is 7.
FINAL_ANSWER:" = Ok "FINAL_ANSWER:"
  /\ extract_final_answer (py := Reference.runtime) "The result is 7.
FINAL_ANSWER:" = Ok (PStr "FINAL_ANSWER:").
Proof. repeat split. Qed.

(** C10: for every reply the extractor returns a value and does not raise,
    whatever the JSON decoder and the number constructors do; an exception
    of the JSON parse leads to the numeric parse, an exception of the
    numeric parse to the boolean test, and what is left is returned as a
    string, the empty string included. *)
Theorem extract_final_answer_never_raises {py : PyRuntime} (response : string) :
  (exists v, extract_final_answer response = Ok v)
  /\ (forall answer e1,
         json_loads answer = Raise e1 ->
         (forall n, numeric_parse answer = Ok n -> classify_answer answer = Ok n)
         /\ (forall e2,
                numeric_parse answer = Raise e2 ->
                classify_answer answer
                = Ok (if is_bool_word answer
                      then PBool (String.eqb (PyStr.lower answer) "true")
                      else PStr answer)))
  /\ (forall e1 e2,
         json_loads "" = Raise e1 -> py_int "" = Raise e2 ->
         extract_final_answer "" = Ok (PStr "")).
Proof.
  split; [| split].
  - unfold extract_final_answer.
    destruct (captured_answer_cases response)
      as [(pre & post & a & _ & _ & _ & ->) | (_ & ->)];
      apply classify_answer_total.
  - intros answer e1 Ej. split.
    + intros n E. rewrite classify_answer_order, Ej, E. reflexivity.
    + intros e2 E. rewrite classify_answer_order, Ej, E.
      destruct (is_bool_word answer); reflexivity.
  - intros e1 e2 Ej Ei. unfold extract_final_answer.
    change (captured_answer "") with (Ok (A := string) ""). cbv beta iota.
    rewrite classify_answer_order, Ej. unfold numeric_parse.
    change (PyStr.contains "." "") with false. cbv iota. rewrite Ei. reflexivity.
Qed.

(** ** The decision on the submission response *)

Lemma next_url_dict (d : PyDict.dict pyval) :
  next_url (PDict d)
  = Ok (match PyDict.get "url" d with
        | Some u => if truthy u then Some u else None
        | None => None
        end).
Proof.
  unfold next_url, py_get, py_getitem, rbind.
  destruct (PyDict.get "url" d) as [u|]; cbn [truthy].
  - destruct (truthy u);
      destruct (truthy (match PyDict.get "correct" d with
                        | Some x => x
                        | None => PNone
                        end)); reflexivity.
  - rewrite !andb_false_r. reflexivity.
Qed.

Lemma get_set_other (V : Type) (k k' : string) (v : V) (d : PyDict.dict V) :
  k <> k' -> PyDict.get k (PyDict.set k' v d) = PyDict.get k d.
Proof.
  intros N. induction d as [|[k0 v0] d IH]; simpl.
  - destruct (String.eqb_spec k k'); [contradiction | reflexivity].
  - destruct (String.eqb_spec k' k0) as [->|]; simpl.
    + destruct (String.eqb_spec k k0); [contradiction | reflexivity].
    + destruct (String.eqb_spec k k0); [reflexivity | exact IH].
Qed.

Lemma get_set_same (V : Type) (k : string) (v : V) (d : PyDict.dict V) :
  PyDict.get k (PyDict.set k v d) = Some v.
Proof.
  induction d as [|[k0 v0] d IH]; simpl.
  - now rewrite String.eqb_refl.
  - destruct (String.eqb_spec k k0) as [->|N]; simpl.
    + now rewrite String.eqb_refl.
    + destruct (String.eqb_spec k k0); [contradiction | exact IH].
Qed.

Lemma py_get_Ok (v : pyval) (key : string) (default x : pyval) :
  py_get v key default = Ok x ->
  exists d, v = PDict d /\ x = or_default (PyDict.get key d) default.
Proof.
  destruct v; simpl; try discriminate. intros [= <-]. eauto.
Qed.

(** ** The Chain Driver *)

Section DriverFacts.

Context {World : Type} {py : PyRuntime} {dec : Decoders} {cap : Capabilities World}.
Variables (email secret : string).


(** An attempt that reaches [results.append] has decoded a [dict], and
    the record is built from it with the defaults of [dict.get]. *)
Lemma attempt_quiz_submitted (url : pyval) (w w' : World)
    (record : StepRecord) (response : pyval) :
  attempt_quiz email secret url w = (Ok (Submitted record response), w') ->
  exists d excerpt answer,
    response = PDict d
    /\ record = StepSolved url excerpt answer
                  (or_default (PyDict.get "correct" d) (PBool false))
                  (or_default (PyDict.get "reason" d) PNone).
Proof.
  unfold attempt_quiz, bind.
  destruct (extract_question url w) as [[qd|e] w1]; [| discriminate].
  destruct (solve_question qd w1) as [[answer|e] w2]; [| discriminate].
  destruct (submit_url qd) as [su|]; [| discriminate].
  destruct (PyStr.is_empty su); [discriminate |].
  destruct (submit_answer email secret su url answer w2) as [[response'|e] w3];
    [| discriminate].
  unfold lift, ret.
  destruct (py_get response' "correct" (PBool false)) as [c|e] eqn:Ec;
    [| discriminate].
  destruct (py_get response' "reason" PNone) as [r|e] eqn:Er; [| discriminate].
  intros [= <- <- <-].
  apply py_get_Ok in Ec as (d & -> & ->).
  apply py_get_Ok in Er as (d' & [= <-] & ->).
  eauto 6.
Qed.

(** Every pass counts one iteration and appends at most one record. *)
Lemma chain_step_counts (st st' : ChainState) (w w' : World) (c : Control) :
  chain_step email secret st w = (c, st', w') ->
  iteration st' = iteration st + 1
  /\ List.length (results st') <= List.length (results st) + 1.
Proof.
  unfold chain_step. cbn [current_url iteration results].
  destruct (attempt_quiz email secret (current_url st) w) as [[[|record response]|e] w1] eqn:A.
  - intros [= <- <- <-]. simpl. lia.
  - apply attempt_quiz_submitted in A as (d & excerpt & answer & -> & _).
    rewrite next_url_dict.
    destruct (match PyDict.get "url" d with
              | Some u => if truthy u then Some u else None
              | None => None
              end);
      intros [= <- <- <-]; simpl; rewrite length_app; simpl; lia.
  - intros [= <- <- <-]. simpl. rewrite length_app. simpl. lia.
Qed.

Lemma chain_loop_passes (fuel : nat) :
  forall (st : ChainState) (w : World),
    max_iterations - iteration st < fuel ->
    exists n st' w',
      chain_loop email secret fuel st w = Some (st', w')
      /\ passes email secret n st w st' w'
      /\ iteration st' = iteration st + n
      /\ (iteration st <= max_iterations -> iteration st' <= max_iterations)
      /\ List.length (results st') <= List.length (results st) + n.
Proof.
  induction fuel as [|fuel IH]; intros st w Fuel; [lia |].
  cbn [chain_loop].
  destruct (loop_guard st) eqn:G.
  - assert (Lt : iteration st < max_iterations).
    { unfold loop_guard in G. apply andb_true_iff in G as [_ G].
      now apply Nat.ltb_lt in G. }
    destruct (chain_step email secret st w) as [[c st1] w1] eqn:Step.
    destruct (chain_step_counts _ _ Step) as [I L].
    destruct c.
    + destruct (IH st1 w1) as (n & st' & w' & Run & P & I' & B & L'); [lia |].
      exists (S n), st', w'. repeat split.
      * exact Run.
      * eapply passes_continue; eassumption.
      * lia.
      * intros _. apply B. lia.
      * lia.
    + exists 1, st1, w1. repeat split.
      * now apply passes_break.
      * lia.
      * lia.
      * lia.
  - exists 0, st, w. repeat split.
    + now apply passes_exit.
    + lia.
    + auto.
    + lia.
Qed.


Lemma chain_terminates (start_url : pyval) (w : World) :
  exists n st' w',
    run_chain email secret start_url w = Some (st', w')
    /\ solve_quiz_chain email secret start_url w = Some (chain_result st', w')
    /\ passes email secret n (initial_state start_url) w st' w'
    /\ iteration st' = n
    /\ n <= max_iterations
    /\ List.length (results st') <= n.
Proof.
  assert (Fuel : max_iterations - iteration (initial_state start_url)
                 < S max_iterations) by (unfold max_iterations; simpl; lia).
  destruct (chain_loop_passes (initial_state start_url) w Fuel)
    as (n & st' & w' & Run & P & I & B & L).
  exists n, st', w'. unfold solve_quiz_chain, run_chain. rewrite Run.
  simpl in I, B, L. repeat split; try assumption; lia.
Qed.

(** C2: every pass of the loop adds exactly one to the iteration counter;
    every chain ends after at most 20 passes, whatever the submission
    endpoint answers, with the counter equal to the number of passes and a
    trace of at most that many entries. *)
Theorem chain_is_bounded_by_twenty_iterations (start_url : pyval) (w : World) :
  (forall st w0 c st1 w1,
      chain_step email secret st w0 = (c, st1, w1) ->
      iteration st1 = iteration st + 1)
  /\ exists n st' w',
      solve_quiz_chain email secret start_url w = Some (chain_result st', w')
      /\ passes email secret n (initial_state start_url) w st' w'
      /\ iteration st' = n
      /\ n <= 20
      /\ List.length (chain_results (chain_result st')) <= 20.
Proof.
  split.
  - intros st w0 c st1 w1 Step. now apply chain_step_counts in Step.
  - destruct (chain_terminates start_url w)
      as (n & st' & w' & _ & Solve & P & I & B & L).
    exists n, st', w'. unfold max_iterations in B. simpl. repeat split; auto; lia.
Qed.

(** The chain always returns, and [total_solved] counts every record of
    the returned trace, of whatever kind. *)
Lemma total_solved_counts_every_record (start_url : pyval) (w : World) :
  exists r w',
    solve_quiz_chain email secret start_url w = Some (r, w')
    /\ total_solved r = List.length (chain_results r)
    /\ total_solved r
       = count is_correct (chain_results r)
         + count is_incorrect (chain_results r)
         + count is_failure (chain_results r).
Proof.
  destruct (chain_terminates start_url w) as (n & st' & w' & _ & Solve & _).
  exists (chain_result st'), w'. repeat split; [exact Solve |].
  simpl. unfold count. induction (results st') as [|r l IH]; [reflexivity |].
  destruct r as [u q a c x | u e]; simpl; [destruct (truthy c); simpl |]; lia.
Qed.

(** C1 (amended): when the extraction of the first page raises, the chain
    returns a trace of exactly one record, which carries the URL that
    failed and the message of the exception, and [total_solved] is 1, the
    length of that trace. *)
Theorem first_extraction_failure_is_recorded
    (start_url : pyval) (w w' : World) (e : exn) :
  truthy start_url = true ->
  extract_question start_url w = (Raise e, w') ->
  solve_quiz_chain email secret start_url w
  = Some ({| total_solved := 1;
             chain_results := [StepFailed start_url e] |}, w').
Proof.
  intros T E.
  unfold solve_quiz_chain, run_chain. cbn [chain_loop].
  unfold loop_guard, initial_state at 1. cbn [current_url iteration].
  rewrite T. cbn [andb Nat.ltb Nat.leb max_iterations].
  unfold chain_step, initial_state. cbn [current_url iteration results].
  unfold attempt_quiz, bind at 1. rewrite E. reflexivity.
Qed.

(** C7: the decision on a decoded response does not look at [correct]: a
    truthy [url] field becomes the next URL and the chain goes on, in the
    same way whatever [correct] is; without a [url] field (or with a falsy
    one) the chain ends, with the record appended and no error. *)
Theorem next_url_ignores_correct :
  (forall d c1 c2,
      next_url (PDict (PyDict.set "correct" c1 d))
      = next_url (PDict (PyDict.set "correct" c2 d)))
  /\ (forall d u,
         PyDict.get "url" d = Some u -> truthy u = true ->
         next_url (PDict d) = Ok (Some u))
  /\ (forall d, PyDict.get "url" d = None -> next_url (PDict d) = Ok None)
  /\ (forall st w record response w',
         attempt_quiz email secret (current_url st) w
         = (Ok (Submitted record response), w') ->
         exists d,
           response = PDict d
           /\ chain_step email secret st w
              = match PyDict.get "url" d with
                | Some u =>
                    if truthy u then
                      (Continue,
                       {| current_url := u;
                          iteration := iteration st + 1;
                          results := (results st ++ [record])%list |}, w')
                    else
                      (Break,
                       {| current_url := current_url st;
                          iteration := iteration st + 1;
                          results := (results st ++ [record])%list |}, w')
                | None =>
                    (Break,
                     {| current_url := current_url st;
                        iteration := iteration st + 1;
                        results := (results st ++ [record])%list |}, w')
                end).
Proof.
  repeat match goal with |- _ /\ _ => split end.
  - intros d c1 c2. rewrite !next_url_dict.
    rewrite !get_set_other by discriminate. reflexivity.
  - intros d u G T. rewrite next_url_dict, G, T. reflexivity.
  - intros d G. rewrite next_url_dict, G. reflexivity.
  - intros st w record response w' A.
    destruct (attempt_quiz_submitted _ _ A) as (d & excerpt & answer & -> & _).
    exists d. split; [reflexivity |].
    unfold chain_step. cbn [current_url iteration results]. rewrite A.
    rewrite next_url_dict.
    destruct (PyDict.get "url" d) as [u|]; [destruct (truthy u) |]; reflexivity.
Qed.

Lemma extract_submit_url_nonempty (text url : string) :
  extract_submit_url text = Some url -> PyStr.is_empty url = false.
Proof.
  intros E. apply extract_submit_url_Some in E
    as (_ & _ & _ & (scheme & run & rest & [-> | ->] & _ & _ & _ & _ & ->) & _);
    reflexivity.
Qed.

(** C8: the Submitter posts the object with the fields email, secret, url
    and answer to the submit URL, raises what the transport raises, raises
    on a status outside 200..299, and otherwise returns the decoded body.
    The driver reads the result with defaults: a missing [correct] is
    recorded as false and a missing [reason] as none, and with the [url]
    field missing as well the chain ends after recording the step, without
    an error record. *)
Theorem submitter_posts_and_tolerates_missing_fields :
  (forall submit_to quiz_url answer w,
      submit_answer email secret submit_to quiz_url answer w
      = match http_post submit_to
                (PDict [("email", PStr email); ("secret", PStr secret);
                        ("url", quiz_url); ("answer", answer)]) w with
        | (Raise e, w') => (Raise e, w')
        | (Ok response, w') =>
            if ((200 <=? status_code response)
                && (status_code response <=? 299))%Z
            then (body_json response, w')
            else (Raise (status_error response), w')
        end)
  /\ (forall url w record response w',
         attempt_quiz email secret url w
         = (Ok (Submitted record response), w') ->
         exists d excerpt answer,
           response = PDict d
           /\ record = StepSolved url excerpt answer
                         (or_default (PyDict.get "correct" d) (PBool false))
                         (or_default (PyDict.get "reason" d) PNone))
  /\ (forall st w question_data w1 answer w2 submit_to d w3,
         extract_question (current_url st) w = (Ok question_data, w1) ->
         solve_question question_data w1 = (Ok answer, w2) ->
         submit_url question_data = Some submit_to ->
         submit_answer email secret submit_to (current_url st) answer w2
         = (Ok (PDict d), w3) ->
         PyDict.get "correct" d = None ->
         PyDict.get "url" d = None ->
         PyDict.get "reason" d = None ->
         chain_step email secret st w
         = (Break,
            {| current_url := current_url st;
               iteration := iteration st + 1;
               results :=
                 (results st
                  ++ [StepSolved (current_url st)
                        (PyStr.take 200 (question question_data))
                        answer (PBool false) PNone])%list |},
            w3)).
Proof.
  repeat match goal with |- _ /\ _ => split end.
  - intros submit_to quiz_url answer w.
    unfold submit_answer, submit_payload, bind, lift, raise_for_status, is_success.
    destruct (http_post _ _ w) as [[response|e] w']; [| reflexivity].
    destruct ((200 <=? status_code response)
              && (status_code response <=? 299))%Z; reflexivity.
  - intros url w record response w'. apply attempt_quiz_submitted.
  - intros st w qd w1 answer w2 su d w3 Eq Ea Es Ep Gc Gu Gr.
    assert (Ne : PyStr.is_empty su = false).
    { unfold extract_question, bind in Eq.
      destruct (render (current_url st) w) as [[page|e] w0]; [| discriminate].
      unfold ret in Eq. injection Eq as <- <-. simpl in Es.
      eapply extract_submit_url_nonempty; eassumption. }
    unfold chain_step. cbn [current_url iteration results].
    unfold attempt_quiz, bind at 1. rewrite Eq.
    unfold bind at 1. rewrite Ea, Es, Ne.
    unfold bind at 1. rewrite Ep.
    unfold bind, lift, ret. cbn [py_get]. rewrite Gc, Gr.
    rewrite next_url_dict, Gu. reflexivity.
Qed.

End DriverFacts.

(** The assumptions of the theorem on a failed first extraction hold in the
    scripted world whose renderer is down. *)
Lemma first_extraction_failure_demo :
  truthy Demo.start = true
  /\ Demo.solve Demo.start Demo.renderer_down
     = Some ({| total_solved := 1;
                chain_results :=
                  [StepFailed Demo.start "net::ERR_CONNECTION_REFUSED"] |},
             Demo.renderer_down).
Proof.
  split; [reflexivity |].
  apply (@first_extraction_failure_is_recorded Demo.World Reference.runtime
           Demo.decoders Demo.capabilities "student@quiz.test" "s3cret"
           Demo.start Demo.renderer_down Demo.renderer_down
           "net::ERR_CONNECTION_REFUSED");
    reflexivity.
Defined.

(** C1 (as stated) fails: the extraction of the first page raises, and
    [total_solved] is 1, not 0. *)
Lemma first_extraction_failure_counts_one :
  extract_question (cap := Demo.capabilities) Demo.start Demo.renderer_down
  = (Raise "net::ERR_CONNECTION_REFUSED", Demo.renderer_down)
  /\ option_map (fun r => total_solved (fst r))
       (Demo.solve Demo.start Demo.renderer_down) = Some 1
  /\ option_map (fun r => total_solved (fst r))
       (Demo.solve Demo.start Demo.renderer_down) <> Some 0.
Proof. repeat split. discriminate. Qed.

(** The scenario of a single quiz: one pass, one record, the answer 4
    judged correct. *)
Example single_quiz_chain :
  option_map fst (Demo.solve Demo.start Demo.single_quiz)
  = Some {| total_solved := 1;
            chain_results :=
              [StepSolved Demo.start Demo.quiz_text (PInt 4) (PBool true) PNone] |}.
Proof. reflexivity. Qed.

(** An endpoint that always names a fresh quiz is followed 20 times; all 20
    answers are recorded, none of them judged correct. *)
Example endless_chain_stops_at_twenty :
  option_map (fun r => (total_solved (fst r),
                        count is_correct (chain_results (fst r)),
                        Demo.posted (snd r)))
    (Demo.solve Demo.start Demo.endless) = Some (20, 0, 20).
Proof. vm_compute. reflexivity. Qed.

(** ** The attachment batch *)

Lemma get_None_keys (V : Type) (k : string) (d : PyDict.dict V) :
  PyDict.get k d = None <-> ~ In k (PyDict.keys d).
Proof.
  induction d as [|[k0 v0] d IH]; simpl.
  - tauto.
  - destruct (String.eqb_spec k k0) as [->|N].
    + split; [discriminate | intros X; elim X; now left].
    + rewrite IH. split.
      * intros X [E | I]; [now elim N | now elim X].
      * intros X I. apply X. now right.
Qed.

Lemma keys_set_new (V : Type) (k : string) (v : V) (d : PyDict.dict V) :
  ~ In k (PyDict.keys d) ->
  PyDict.keys (PyDict.set k v d) = (PyDict.keys d ++ [k])%list.
Proof.
  induction d as [|[k0 v0] d IH]; simpl; intros N; [reflexivity |].
  destruct (String.eqb_spec k k0) as [->|Ne].
  - elim N. now left.
  - simpl. f_equal. apply IH. intros I. apply N. now right.
Qed.

Lemma keys_set_old (V : Type) (k : string) (v : V) (d : PyDict.dict V) :
  In k (PyDict.keys d) -> PyDict.keys (PyDict.set k v d) = PyDict.keys d.
Proof.
  induction d as [|[k0 v0] d IH]; simpl; intros I; [contradiction |].
  destruct (String.eqb_spec k k0) as [->|Ne]; [reflexivity |].
  simpl. f_equal. apply IH. destruct I as [E | I]; [now elim Ne | exact I].
Qed.

Lemma NoDup_keys_set (V : Type) (k : string) (v : V) (d : PyDict.dict V) :
  NoDup (PyDict.keys d) -> NoDup (PyDict.keys (PyDict.set k v d)).
Proof.
  intros N. destruct (in_dec string_dec k (PyDict.keys d)) as [I | I].
  - now rewrite keys_set_old.
  - rewrite keys_set_new by assumption.
    apply NoDup_app; [exact N | repeat constructor; simpl; tauto |].
    intros x Ix [<- | []]. contradiction.
Qed.

Lemma NoDup_app_cons_disjoint (A : Type) (l : list A) (x : A) (r : list A) :
  NoDup (x :: r) -> (forall k, In k (x :: r) -> ~ In k l) ->
  forall k, In k r -> ~ In k (l ++ [x])%list.
Proof.
  intros N D k Ik I. apply in_app_or in I as [I | [<- | []]].
  - exact (D k (or_intror Ik) I).
  - inversion N. contradiction.
Qed.

Section BatchFacts.

Context {World : Type} {py : PyRuntime} {dec : Decoders} {cap : Capabilities World}.

Lemma process_fold (file_contents : PyDict.dict bytes) :
  forall acc : PyDict.dict pyval,
    NoDup (PyDict.keys file_contents) ->
    (forall k, In k (PyDict.keys file_contents) -> ~ In k (PyDict.keys acc)) ->
    PyDict.keys (fold_left process_resource file_contents acc)
    = (PyDict.keys acc ++ PyDict.keys file_contents)%list
    /\ forall url,
        PyDict.get url (fold_left process_resource file_contents acc)
        = match PyDict.get url file_contents with
          | Some data => Some (or_error_summary (decode_resource url data))
          | None => PyDict.get url acc
          end.
Proof.
  induction file_contents as [|[u c] fc IH]; intros acc N D.
  - simpl. now rewrite app_nil_r.
  - cbn [fold_left]. unfold process_resource at 2 4. cbn [fst snd].
    simpl in N, D.
    assert (Nu : ~ In u (PyDict.keys acc)) by (apply D; now left).
    destruct (IH (PyDict.set u (or_error_summary (decode_resource u c)) acc))
      as [K G].
    + now inversion N.
    + rewrite keys_set_new by assumption.
      apply NoDup_app_cons_disjoint; assumption.
    + split.
      * rewrite K, keys_set_new by assumption.
        rewrite <- app_assoc. reflexivity.
      * intros url. rewrite G. cbn [PyDict.get].
        destruct (String.eqb_spec url u) as [->|Ne].
        -- assert (X : PyDict.get u fc = None).
           { apply get_None_keys. now inversion N. }
           rewrite X. apply get_set_same.
        -- destruct (PyDict.get url fc); [reflexivity |].
           now apply get_set_other.
Qed.

(** The decoder makes one entry per key, each from its own resource. *)
Lemma process_files_entries (file_contents : PyDict.dict bytes) :
  NoDup (PyDict.keys file_contents) ->
  PyDict.keys (process_files file_contents) = PyDict.keys file_contents
  /\ forall url data,
      PyDict.get url file_contents = Some data ->
      PyDict.get url (process_files file_contents)
      = Some (or_error_summary (decode_resource url data)).
Proof.
  intros N.
  assert (D : forall k, In k (PyDict.keys file_contents) ->
                        ~ In k (PyDict.keys (@nil (string * pyval)))) by (simpl; tauto).
  destruct (process_fold file_contents [] N D) as [K G].
  split; [exact K |]. intros url data E. unfold process_files.
  now rewrite G, E.
Qed.

Lemma is_attachment_known (link : Link) :
  is_attachment link = true -> detect_file_type (href link) <> FtUnknown.
Proof.
  unfold is_attachment, attachment_suffixes, detect_file_type. cbn [existsb].
  destruct (PyStr.contains ".pdf" (PyStr.lower (href link))); [discriminate |].
  destruct (PyStr.contains ".csv" (PyStr.lower (href link))); [discriminate |].
  destruct (PyStr.contains ".xlsx" (PyStr.lower (href link))); [discriminate |].
  destruct (PyStr.contains ".json" (PyStr.lower (href link)));
    [destruct (PyStr.contains ".xls" (PyStr.lower (href link))); discriminate |].
  destruct (PyStr.contains ".txt" (PyStr.lower (href link)));
    [destruct (PyStr.contains ".xls" (PyStr.lower (href link))); discriminate |].
  discriminate.
Qed.

Lemma download_attachments_skips_failure
    (link : Link) (rest : list Link) (fc : PyDict.dict bytes)
    (w w' : World) (e : exn) :
  is_attachment link = true ->
  download_file (href link) w = (Raise e, w') ->
  download_attachments (link :: rest) fc w = download_attachments rest fc w'.
Proof.
  intros A D. cbn [download_attachments]. rewrite A.
  unfold bind at 1, try_except, bind at 1. rewrite D. reflexivity.
Qed.

Lemma download_attachments_skips_other
    (link : Link) (rest : list Link) (fc : PyDict.dict bytes) (w : World) :
  is_attachment link = false ->
  download_attachments (link :: rest) fc w = download_attachments rest fc w.
Proof. intros A. cbn [download_attachments]. now rewrite A. Qed.

Lemma download_attachments_keeps_success
    (link : Link) (rest : list Link) (fc : PyDict.dict bytes)
    (w w' : World) (data : bytes) :
  is_attachment link = true ->
  download_file (href link) w = (Ok data, w') ->
  download_attachments (link :: rest) fc w
  = download_attachments rest (PyDict.set (href link) data fc) w'.
Proof.
  intros A D. cbn [download_attachments]. rewrite A.
  unfold bind at 1, try_except, bind at 1. rewrite D. reflexivity.
Qed.

(** The download loop never raises; what it collects was downloaded from an
    attachment link of the page or was there before. *)
Lemma download_attachments_collects (todo : list Link) :
  forall (fc0 : PyDict.dict bytes) (w : World),
    NoDup (PyDict.keys fc0) ->
    exists fc w',
      download_attachments todo fc0 w = (Ok fc, w')
      /\ NoDup (PyDict.keys fc)
      /\ forall url data,
          PyDict.get url fc = Some data ->
          PyDict.get url fc0 = Some data
          \/ exists link w1 w2,
              In link todo /\ href link = url /\ is_attachment link = true
              /\ download_file url w1 = (Ok data, w2).
Proof.
  induction todo as [|link rest IH]; intros fc0 w N.
  - exists fc0, w. repeat split; [exact N | auto].
  - destruct (is_attachment link) eqn:A.
    + destruct (download_file (href link) w) as [[data|e] w1] eqn:D.
      * erewrite download_attachments_keeps_success; [| exact A | exact D].
        destruct (IH (PyDict.set (href link) data fc0) w1)
          as (fc & w' & Run & N' & From); [now apply NoDup_keys_set |].
        exists fc, w'. repeat split; [exact Run | exact N' |].
        intros url d G. destruct (From url d G) as [G0 | (l & w2 & w3 & I & E & X)].
        -- destruct (string_dec url (href link)) as [->|Ne].
           ++ rewrite get_set_same in G0. injection G0 as <-.
              right. exists link, w, w1. simpl. auto.
           ++ rewrite get_set_other in G0 by assumption. now left.
        -- right. exists l, w2, w3. simpl. auto.
      * erewrite download_attachments_skips_failure; [| exact A | exact D].
        destruct (IH fc0 w1 N) as (fc & w' & Run & N' & From).
        exists fc, w'. repeat split; [exact Run | exact N' |].
        intros url d G. destruct (From url d G) as [G0 | (l & w2 & w3 & I & X)];
          [now left |]. right. exists l, w2, w3. simpl. auto.
    + rewrite download_attachments_skips_other by exact A.
      destruct (IH fc0 w N) as (fc & w' & Run & N' & From).
      exists fc, w'. repeat split; [exact Run | exact N' |].
      intros url d G. destruct (From url d G) as [G0 | (l & w2 & w3 & I & X)];
        [now left |]. right. exists l, w2, w3. simpl. auto.
Qed.


Lemma store_downloads_get (items : list (string * bytes)) :
  forall (fc0 : PyDict.dict bytes) (url : string),
    PyDict.get url (store_downloads items fc0)
    = match latest url items with
      | Some data => Some data
      | None => PyDict.get url fc0
      end.
Proof.
  induction items as [|[u d] rest IH]; intros fc0 url; [reflexivity |].
  cbn [store_downloads fold_left fst snd latest].
  fold (store_downloads rest (PyDict.set u d fc0)). rewrite IH.
  destruct (latest url rest); [reflexivity |].
  destruct (String.eqb_spec url u) as [->|Ne].
  - apply get_set_same.
  - now apply get_set_other.
Qed.

Lemma latest_In (url : string) (items : list (string * bytes)) :
  (exists data, latest url items = Some data)
  <-> exists data, In (url, data) items.
Proof.
  induction items as [|[u d] rest IH]; simpl.
  - split; intros [x X]; [discriminate | contradiction].
  - destruct (latest url rest) as [later|].
    + split; [| eauto]. intros _.
      destruct IH as [IH _]. destruct IH as [x X]; eauto.
    + destruct (String.eqb_spec url u) as [->|Ne].
      * split; eauto.
      * split; [intros [x X]; discriminate |].
        intros [x [X | X]]; [injection X as -> _; now elim Ne |].
        destruct IH as [_ IH]. destruct IH as [y Y]; [eauto | discriminate].
Qed.

(** The download loop stores what was fetched with success, and nothing
    else. *)
Lemma download_attachments_stores (todo : list Link) :
  forall (fc0 : PyDict.dict bytes) (w : World),
    download_attachments todo fc0 w
    = (Ok (store_downloads (fst (successful_downloads todo w)) fc0),
       snd (successful_downloads todo w)).
Proof.
  induction todo as [|link rest IH]; intros fc0 w; [reflexivity |].
  cbn [successful_downloads].
  destruct (is_attachment link) eqn:A.
  - destruct (download_file (href link) w) as [[data|e] w1] eqn:D.
    + erewrite download_attachments_keeps_success; [| exact A | exact D].
      rewrite IH. destruct (successful_downloads rest w1). reflexivity.
    + erewrite download_attachments_skips_failure; [| exact A | exact D].
      apply IH.
  - rewrite download_attachments_skips_other by exact A. apply IH.
Qed.

(** C4 (amended): in one chain step the download loop never aborts; the
    summary mapping has exactly one entry per URL that was downloaded with
    success, all of them links with a listed suffix, so none is of unknown
    type; a link whose download fails and a link without a listed suffix
    leave no entry.  Each entry is decoded from its own resource alone (the
    bytes received last for its URL): a decoder that raises yields the error
    summary with its message for that resource, a file that reads yields a
    summary of its type, and the decoder, given a resource of unknown type,
    yields the error "Unknown file type". *)
Theorem attachment_batch_is_isolated (todo : list Link) (w : World) :
  (exists file_contents w',
      download_attachments todo [] w = (Ok file_contents, w')
      /\ PyDict.keys (process_files file_contents) = PyDict.keys file_contents
      /\ (forall url data,
             PyDict.get url file_contents = Some data ->
             (exists link w1 w2,
                 In link todo /\ href link = url /\ is_attachment link = true
                 /\ download_file url w1 = (Ok data, w2))
             /\ detect_file_type url <> FtUnknown
             /\ PyDict.get url (process_files file_contents)
                = Some (or_error_summary (decode_resource url data)))
      /\ w' = snd (successful_downloads todo w)
      /\ NoDup (PyDict.keys (process_files file_contents))
      /\ (forall url,
             In url (PyDict.keys (process_files file_contents))
             <-> exists data, In (url, data) (fst (successful_downloads todo w)))
      /\ (forall url,
             PyDict.get url file_contents
             = latest url (fst (successful_downloads todo w)))
      /\ (forall url,
             PyDict.get url (process_files file_contents)
             = option_map
                 (fun data => or_error_summary (decode_resource url data))
                 (latest url (fst (successful_downloads todo w)))))
  /\ (forall link rest fc w0 e w1,
         is_attachment link = true ->
         download_file (href link) w0 = (Raise e, w1) ->
         download_attachments (link :: rest) fc w0
         = download_attachments rest fc w1)
  /\ (forall link rest fc w0,
         is_attachment link = false ->
         download_attachments (link :: rest) fc w0
         = download_attachments rest fc w0)
  /\ (forall file_contents,
         NoDup (PyDict.keys file_contents) ->
         PyDict.keys (process_files file_contents) = PyDict.keys file_contents
         /\ forall url data,
             PyDict.get url file_contents = Some data ->
             PyDict.get url (process_files file_contents)
             = Some (match detect_file_type url with
                     | FtPdf => process_pdf data
                     | FtCsv => process_csv data
                     | FtXlsx => process_excel data
                     | FtJson => process_json data
                     | FtTxt => process_text data
                     | FtUnknown => error_summary "Unknown file type"
                     end))
  /\ (forall data e, pdf_pages data = Raise e -> process_pdf data = error_summary e)
  /\ (forall data e, read_csv data = Raise e -> process_csv data = error_summary e)
  /\ (forall data e, read_excel data = Raise e -> process_excel data = error_summary e)
  /\ (forall data e,
         utf8_decode data = Raise e ->
         process_json data = error_summary e /\ process_text data = error_summary e)
  /\ (forall data df statistics,
         read_csv data = Ok df ->
         (if csv_empty df then Ok (PDict []) else csv_describe df) = Ok statistics ->
         exists fields, process_csv data = PDict (("type", PStr "csv") :: fields))
  /\ (forall link rest fc w0 data w1,
         is_attachment link = true ->
         download_file (href link) w0 = (Ok data, w1) ->
         download_attachments (link :: rest) fc w0
         = download_attachments rest (PyDict.set (href link) data fc) w1)
  /\ (forall fc w0, download_attachments [] fc w0 = (Ok fc, w0))
  /\ (forall data df e,
         read_csv data = Ok df -> csv_empty df = false ->
         csv_describe df = Raise e ->
         process_csv data = error_summary e)
  /\ (forall data decoded e,
         utf8_decode data = Ok decoded -> json_loads decoded = Raise e ->
         process_json data = error_summary e)
  /\ (forall data decoded value,
         utf8_decode data = Ok decoded -> json_loads decoded = Ok value ->
         process_json data = PDict [("type", PStr "json"); ("data", value)])
  /\ (forall data texts,
         pdf_pages data = Ok texts ->
         exists fields, process_pdf data = PDict (("type", PStr "pdf") :: fields))
  /\ (forall data sheets,
         read_excel data = Ok sheets ->
         exists fields, process_excel data = PDict (("type", PStr "excel") :: fields))
  /\ (forall data decoded,
         utf8_decode data = Ok decoded ->
         exists fields, process_text data = PDict (("type", PStr "text") :: fields)).
Proof.
  split; [| split; [| split; [| split; [| split; [| split; [| split; [| split;
    [| split; [| split; [| split; [| split; [| split; [| split;
    [| split; [| split]]]]]]]]]]]]]]].
  - destruct (download_attachments_collects todo (@nil (string * bytes)) w
                (NoDup_nil _))
      as (fc & w' & Run & N & From).
    destruct (process_files_entries fc N) as [K G].
    pose proof (download_attachments_stores todo (@nil (string * bytes)) w) as St.
    rewrite Run in St. injection St as Efc Ew.
    assert (Get : forall url,
               PyDict.get url fc = latest url (fst (successful_downloads todo w))).
    { intros url. rewrite Efc, store_downloads_get.
      destruct (latest url (fst (successful_downloads todo w))); reflexivity. }
    exists fc, w'. split; [exact Run |]. split; [exact K |].
    split; [| split; [exact Ew | split; [now rewrite K | split; [| split]]]].
    + intros url data E. split; [| split].
      * destruct (From url data E) as [X | X]; [discriminate | exact X].
      * destruct (From url data E) as [X | (l & _ & _ & _ & <- & A & _)];
          [discriminate | now apply is_attachment_known].
      * now apply G.
    + intros url. rewrite K, <- latest_In, <- Get. split.
      * intros I. destruct (PyDict.get url fc) as [data|] eqn:E; [eauto |].
        apply get_None_keys in E. contradiction.
      * intros [data E]. pose proof (get_None_keys url fc) as X.
        destruct (in_dec string_dec url (PyDict.keys fc)) as [I | I]; [exact I |].
        apply X in I. congruence.
    + exact Get.
    + intros url. rewrite <- Get.
      assert (D : forall k, In k (PyDict.keys fc) ->
                            ~ In k (PyDict.keys (@nil (string * pyval))))
        by (simpl; tauto).
      destruct (process_fold fc [] N D) as [_ F]. unfold process_files.
      rewrite F. destruct (PyDict.get url fc); reflexivity.
  - intros link rest fc w0 e w1 A D.
    eapply download_attachments_skips_failure; eassumption.
  - intros link rest fc w0 A. now apply download_attachments_skips_other.
  - intros fc N. destruct (process_files_entries fc N) as [K E].
    split; [exact K |]. intros url data G.
    rewrite (E url data G). unfold decode_resource.
    destruct (detect_file_type url); reflexivity.
  - intros data e E. unfold process_pdf. now rewrite E.
  - intros data e E. unfold process_csv. now rewrite E.
  - intros data e E. unfold process_excel. now rewrite E.
  - intros data e E. unfold process_json, process_text. now rewrite E.
  - intros data df statistics E S. unfold process_csv. rewrite E, S.
    simpl. eauto.
  - intros link rest fc w0 data w1 A D.
    eapply download_attachments_keeps_success; eassumption.
  - reflexivity.
  - intros data df e E Ne D. unfold process_csv. now rewrite E, Ne, D.
  - intros data decoded e E J. unfold process_json. now rewrite E, J.
  - intros data decoded value E J. unfold process_json. now rewrite E, J.
  - intros data texts E. unfold process_pdf. rewrite E. simpl. eauto.
  - intros data sheets E. unfold process_excel. rewrite E. simpl. eauto.
  - intros data decoded E. unfold process_text. rewrite E. simpl. eauto.
Qed.

End BatchFacts.

(** C4 (as stated) fails: of three linked resources -- a CSV file, a CSV
    file whose download fails and a file of an unlisted type -- only the
    first is downloaded, and the summary mapping has one entry, not
    three. *)
Lemma failed_downloads_leave_no_entry :
  List.length Demo.three_links = 3
  /\ download_file (cap := Demo.capabilities) "https://quiz.test/missing.csv"
       Demo.with_attachments
     = (Raise "Client error '404 Not Found'", Demo.with_attachments)
  /\ option_map
       (fun fc => PyDict.keys
                    (process_files (py := Reference.runtime) (dec := Demo.decoders) fc))
       (match download_attachments (cap := Demo.capabilities) Demo.three_links []
                Demo.with_attachments with
        | (Ok fc, _) => Some fc
        | (Raise _, _) => None
        end)
     = Some ["https://quiz.test/data.csv"].
Proof. repeat split. Qed.

(** C9: every chain returns, and [total_solved] is the length of the
    returned trace: it counts the records of answers judged correct, the
    records of answers not judged correct and the error records alike.  It
    is not the number of quizzes solved correctly: against an endpoint that
    rejects every answer it is 20 while no record is correct. *)
Theorem total_solved_is_trace_length :
  (forall (World : Type) (py : PyRuntime) (dec : Decoders)
          (cap : Capabilities World) (email secret : string)
          (start_url : pyval) (w : World),
      exists r w',
        solve_quiz_chain email secret start_url w = Some (r, w')
        /\ total_solved r = List.length (chain_results r)
        /\ total_solved r
           = count is_correct (chain_results r)
             + count is_incorrect (chain_results r)
             + count is_failure (chain_results r))
  /\ exists r w',
      Demo.solve Demo.start Demo.endless = Some (r, w')
      /\ total_solved r = 20
      /\ count is_correct (chain_results r) = 0
      /\ count is_incorrect (chain_results r) = 20.
Proof.
  split.
  - intros World py dec cap email secret start_url w.
    apply total_solved_counts_every_record.
  - eexists. eexists. split; [vm_compute; reflexivity |].
    repeat split.
Qed.

(** * Further properties of the code *)

(** ** The shape of a submit URL *)

Lemma forallb_append (f : ascii -> bool) (a b : string) :
  PyStr.forallb f (a ++ b) = PyStr.forallb f a && PyStr.forallb f b.
Proof.
  induction a as [|c a IH]; simpl; [reflexivity |].
  now rewrite IH, andb_assoc.
Qed.

(** X1: a URL the extractor returns stands in the text right after the phrase,
    begins with [http://] or [https://] followed by at least one
    character, and holds no whitespace and no closing parenthesis. *)
Theorem extract_submit_url_shape (text url : string) :
  extract_submit_url text = Some url ->
  occurs_in (submit_phrase ++ url) text
  /\ (exists rest, rest <> "" /\ (url = "http://" ++ rest \/ url = "https://" ++ rest))
  /\ PyStr.forallb url_char url = true.
Proof.
  intros E. apply extract_submit_url_Some in E
    as (pre & post & -> & (scheme & run & rest & S & -> & Ne & All & _ & ->) & _).
  split; [| split].
  - exists pre, rest. now rewrite !append_assoc.
  - exists run. split; [exact Ne |]. destruct S as [-> | ->]; auto.
  - rewrite forallb_append, All. destruct S as [-> | ->]; reflexivity.
Qed.

Lemma extract_submit_url_shape_demo :
  occurs_in (submit_phrase ++ "https://quiz.test/submit") Demo.quiz_text
  /\ PyStr.forallb url_char "https://quiz.test/submit" = true.
Proof.
  destruct (@extract_submit_url_shape Demo.quiz_text "https://quiz.test/submit"
              eq_refl) as (O & _ & A).
  split; [exact O | exact A].
Defined.

(** ** The captured answer *)

Lemma lstrip_head (s : string) :
  PyStr.lstrip s = ""
  \/ exists c t, PyStr.lstrip s = String c t /\ PyStr.is_space c = false.
Proof.
  induction s as [|c t IH]; simpl; [now left |].
  destruct (PyStr.is_space c) eqn:E; [exact IH | right; eauto].
Qed.

Lemma rstrip_idem (s : string) : PyStr.rstrip (PyStr.rstrip s) = PyStr.rstrip s.
Proof.
  induction s as [|c t IH]; simpl; [reflexivity |].
  destruct (PyStr.is_space c && PyStr.is_empty (PyStr.rstrip t)) eqn:E;
    [reflexivity |].
  simpl. now rewrite IH, E.
Qed.

Lemma rstrip_cons (c : ascii) (t : string) :
  PyStr.is_space c = false ->
  PyStr.rstrip (String c t) = String c (PyStr.rstrip t).
Proof. intros E. simpl. now rewrite E. Qed.

Lemma lstrip_cons (c : ascii) (t : string) :
  PyStr.is_space c = false -> PyStr.lstrip (String c t) = String c t.
Proof. intros E. simpl. now rewrite E. Qed.

Lemma strip_idem (s : string) : PyStr.strip (PyStr.strip s) = PyStr.strip s.
Proof.
  unfold PyStr.strip.
  destruct (lstrip_head s) as [-> | (c & t & -> & E)]; [reflexivity |].
  rewrite (rstrip_cons c t E), (lstrip_cons c _ E), (rstrip_cons c _ E).
  now rewrite rstrip_idem.
Qed.

Lemma lstrip_forallb (f : ascii -> bool) (s : string) :
  PyStr.forallb f s = true -> PyStr.forallb f (PyStr.lstrip s) = true.
Proof.
  induction s as [|c t IH]; simpl; [auto |]. intros A.
  apply andb_true_iff in A as [A1 A2].
  destruct (PyStr.is_space c); [auto | simpl; now rewrite A1, A2].
Qed.

Lemma rstrip_forallb (f : ascii -> bool) (s : string) :
  PyStr.forallb f s = true -> PyStr.forallb f (PyStr.rstrip s) = true.
Proof.
  induction s as [|c t IH]; simpl; [auto |]. intros A.
  apply andb_true_iff in A as [A1 A2].
  destruct (PyStr.is_space c && PyStr.is_empty (PyStr.rstrip t));
    [reflexivity | simpl; now rewrite A1, IH].
Qed.

Lemma strip_forallb (f : ascii -> bool) (s : string) :
  PyStr.forallb f s = true -> PyStr.forallb f (PyStr.strip s) = true.
Proof. intros A. unfold PyStr.strip. now apply rstrip_forallb, lstrip_forallb. Qed.

Lemma split_nl_lines (s : string) :
  Forall (fun l => PyStr.forallb not_nl l = true) (PyStr.split_nl s).
Proof.
  induction s as [|c t IH]; simpl; [repeat constructor |].
  destruct (Ascii.eqb c PyStr.nl) eqn:E; [constructor; [reflexivity | exact IH] |].
  destruct (PyStr.split_nl t) as [|h r]; [repeat constructor; simpl |].
  - unfold not_nl. now rewrite E.
  - inversion IH as [|? ? Hh Hr]; subst. constructor; [| exact Hr].
    simpl. unfold not_nl at 1. now rewrite E, Hh.
Qed.

Lemma nonblank_lines_trimmed (response l : string) :
  In l (nonblank_lines response) ->
  PyStr.strip l = l /\ PyStr.forallb not_nl l = true.
Proof.
  unfold nonblank_lines. intros I. apply in_map_iff in I as (x & <- & Ix).
  apply filter_In in Ix as [Ix _]. split; [apply strip_idem |].
  apply strip_forallb.
  pose proof (split_nl_lines (PyStr.strip response)) as F.
  rewrite Forall_forall in F. now apply F.
Qed.

Lemma last_In (A : Type) (x : A) (l : list A) (d : A) : In (last (x :: l) d) (x :: l).
Proof.
  revert x. induction l as [|y l IH]; intros x; [now left |].
  right. apply IH.
Qed.

Lemma split_nl_head (c : ascii) (t : string) :
  Ascii.eqb c PyStr.nl = false ->
  exists h r, PyStr.split_nl (String c t) = String c h :: r.
Proof.
  intros E. simpl. rewrite E. unfold PyStr.s1.
  destruct (PyStr.split_nl t); eauto.
Qed.

Lemma no_nonblank_line (response : string) :
  nonblank_lines response = [] -> PyStr.strip response = "".
Proof.
  unfold nonblank_lines, PyStr.strip. intros E.
  destruct (lstrip_head response) as [-> | (c & t & L & Sp)]; [reflexivity |].
  exfalso. rewrite L, (rstrip_cons c t Sp) in E.
  assert (Nl : Ascii.eqb c PyStr.nl = false).
  { destruct (Ascii.eqb_spec c PyStr.nl) as [->|]; [discriminate | reflexivity]. }
  destruct (split_nl_head c (PyStr.rstrip t) Nl) as (h & r & Sh).
  rewrite Sh in E. cbn [filter] in E.
  assert (Nb : nonblank (String c h) = true).
  { unfold nonblank, PyStr.strip. now rewrite (lstrip_cons c h Sp), (rstrip_cons c h Sp). }
  rewrite Nb in E. discriminate.
Qed.

(** X2: the string that is classified never has whitespace at either end and
    never holds a newline, whether it comes from the marker or from the
    last non-blank line. *)
Theorem captured_answer_is_a_trimmed_line (response : string) :
  exists answer,
    captured_answer response = Ok answer
    /\ PyStr.strip answer = answer
    /\ PyStr.forallb not_nl answer = true.
Proof.
  destruct (captured_answer_cases response)
    as [(pre & post & a & _ & (m & rest & _ & _ & _ & ->) & _ & C) | (_ & C)].
  - eexists. split; [exact C |]. split; [apply strip_idem |].
    apply strip_forallb, take_while_forallb.
  - exists (last_nonblank_line response). split; [exact C |].
    unfold last_nonblank_line.
    destruct (nonblank_lines response) as [|l ls] eqn:E.
    + rewrite (no_nonblank_line response E). split; reflexivity.
    + apply (nonblank_lines_trimmed response). rewrite E. apply last_In.
Qed.

(** ** The classifier and letter case *)

Lemma lower_char_idem (c : ascii) :
  PyStr.lower_char (PyStr.lower_char c) = PyStr.lower_char c.
Proof. destruct c as [[] [] [] [] [] [] [] []]; reflexivity. Qed.

Lemma lower_idem (s : string) : PyStr.lower (PyStr.lower s) = PyStr.lower s.
Proof.
  induction s as [|c t IH]; simpl; [reflexivity |].
  now rewrite lower_char_idem, IH.
Qed.

(** X3: the classifier and the download filter do not depend on letter
    case: two URLs that agree when lowercased are classified alike and are
    both downloaded or both skipped; in particular a URL and its lowercase
    form. *)
Theorem classification_ignores_case (a b : Link) :
  PyStr.lower (href a) = PyStr.lower (href b) ->
  detect_file_type (href a) = detect_file_type (href b)
  /\ is_attachment a = is_attachment b
  /\ detect_file_type (PyStr.lower (href a)) = detect_file_type (href a).
Proof.
  intros E. unfold detect_file_type, is_attachment.
  rewrite lower_idem, E. auto.
Qed.

Lemma classification_ignores_case_demo :
  detect_file_type "https://quiz.test/REPORT.PDF"
  = detect_file_type "https://quiz.test/report.pdf".
Proof.
  apply (@classification_ignores_case
           {| href := "https://quiz.test/REPORT.PDF"; text := "" |}
           {| href := "https://quiz.test/report.pdf"; text := "" |}).
  reflexivity.
Defined.

(** X4: the links the classifier knows but the download loop skips are
    exactly those whose lowercased URL holds [.xls] and none of [.pdf],
    [.csv], [.xlsx], [.json], [.txt]; the classifier takes them for
    spreadsheets, and they are never fetched. *)
Theorem old_spreadsheets_are_not_downloaded (link : Link) :
  let u := PyStr.lower (href link) in
  (detect_file_type (href link) <> FtUnknown /\ is_attachment link = false)
  <-> (occurs_in ".xls" u
       /\ forall suffix,
           In suffix [".pdf"; ".csv"; ".xlsx"; ".json"; ".txt"] ->
           ~ occurs_in suffix u).
Proof.
  intros u.
  assert (L : (forall suffix,
                  In suffix [".pdf"; ".csv"; ".xlsx"; ".json"; ".txt"] ->
                  ~ occurs_in suffix u)
              <-> (PyStr.contains ".pdf" u = false
                   /\ PyStr.contains ".csv" u = false
                   /\ PyStr.contains ".xlsx" u = false
                   /\ PyStr.contains ".json" u = false
                   /\ PyStr.contains ".txt" u = false)).
  { split.
    - intros N. repeat split; apply contains_false, N; simpl; tauto.
    - intros (A & B & C & D & E) suffix I. simpl in I.
      repeat (destruct I as [<- | I]; [now apply contains_false |]).
      contradiction. }
  rewrite L, <- contains_occurs.
  unfold detect_file_type, is_attachment, attachment_suffixes.
  fold u. cbn [existsb].
  destruct (PyStr.contains ".pdf" u);
    destruct (PyStr.contains ".csv" u);
    destruct (PyStr.contains ".xlsx" u);
    destruct (PyStr.contains ".xls" u);
    destruct (PyStr.contains ".json" u);
    destruct (PyStr.contains ".txt" u);
    cbn [orb]; intuition congruence.
Qed.

(** ** The decoders *)

Lemma numbered_pages_length (n : Z) (texts : list string) :
  List.length (numbered_pages n texts) = List.length texts.
Proof.
  revert n. induction texts as [|t r IH]; intros n; simpl; [reflexivity |].
  now rewrite IH.
Qed.

Lemma numbered_pages_nth (texts : list string) :
  forall (n : Z) (i : nat) (t : string),
    nth_error texts i = Some t ->
    nth_error (numbered_pages n texts) i
    = Some (PDict [("page", PInt (n + Z.of_nat i)); ("text", PStr t)]).
Proof.
  induction texts as [|x r IH]; intros n i t E; destruct i as [|i];
    simpl in E; try discriminate.
  - injection E as ->. simpl. now rewrite Z.add_0_r.
  - cbn [numbered_pages nth_error]. rewrite (IH (n + 1)%Z i t E).
    replace (n + Z.of_nat (S i))%Z with (n + 1 + Z.of_nat i)%Z by lia.
    reflexivity.
Qed.

Section DecoderFacts.

Context {py : PyRuntime} {dec : Decoders}.

(** X5: when the PDF reads, the summary has the type pdf, [num_pages] is
    the number of page entries, and the entries keep the order of the pages
    and are numbered 1, 2, ... without a gap; when it does not read, the
    summary is the error with the message. *)
Theorem process_pdf_numbers_pages (data : bytes) :
  match pdf_pages data with
  | Raise e => process_pdf data = error_summary e
  | Ok texts =>
      exists pages,
        process_pdf data
        = PDict [("type", PStr "pdf");
                 ("num_pages", PInt (Z.of_nat (List.length pages)));
                 ("pages", PList pages)]
        /\ List.length pages = List.length texts
        /\ forall i t,
            nth_error texts i = Some t ->
            nth_error pages i
            = Some (PDict [("page", PInt (Z.of_nat i + 1)); ("text", PStr t)])
  end.
Proof.
  unfold process_pdf. destruct (pdf_pages data) as [texts|e]; [| reflexivity].
  exists (numbered_pages 1 texts). simpl. rewrite numbered_pages_length.
  repeat split. intros i t E. rewrite (numbered_pages_nth texts 1 i E).
  replace (1 + Z.of_nat i)%Z with (Z.of_nat i + 1)%Z by lia. reflexivity.
Qed.

Lemma split_nl_count (s : string) :
  List.length (PyStr.split_nl s) = count_nl s + 1.
Proof.
  induction s as [|c t IH]; simpl; [reflexivity |].
  destruct (Ascii.eqb c PyStr.nl); simpl.
  - now rewrite IH.
  - destruct (PyStr.split_nl t) as [|h r]; simpl in *; lia.
Qed.

(** X6: when the bytes decode, the text summary reports the text unchanged
    and one line more than the text has newlines, so an empty file has one
    line; when they do not decode, the summary is the error with the
    message. *)
Theorem process_text_counts_lines (data : bytes) :
  match utf8_decode data with
  | Raise e => process_text data = error_summary e
  | Ok decoded =>
      process_text data
      = PDict [("type", PStr "text");
               ("content", PStr decoded);
               ("lines", PInt (Z.of_nat (count_nl decoded + 1)))]
  end.
Proof.
  unfold process_text. destruct (utf8_decode data) as [decoded|e]; [| reflexivity].
  simpl. now rewrite split_nl_count.
Qed.

Lemma decode_resource_tagged (url : string) (data : bytes) :
  (exists e, or_error_summary (decode_resource url data) = error_summary e)
  \/ exists tag fields,
      type_tag (detect_file_type url) = Some tag
      /\ or_error_summary (decode_resource url data)
         = PDict (("type", PStr tag) :: fields).
Proof.
  unfold decode_resource.
  destruct (detect_file_type url); cbn [or_error_summary type_tag].
  - unfold process_pdf. destruct (pdf_pages data); simpl; eauto.
  - unfold process_csv. destruct (read_csv data) as [df|]; simpl; eauto.
    destruct (if csv_empty df then Ok (PDict []) else csv_describe df);
      simpl; eauto.
  - unfold process_excel. destruct (read_excel data); simpl; eauto.
  - unfold process_json. destruct (utf8_decode data) as [t|]; simpl; eauto.
    destruct (json_loads t); simpl; eauto.
  - unfold process_text. destruct (utf8_decode data); simpl; eauto.
  - left. eauto.
Qed.

Lemma process_fold_values (file_contents : PyDict.dict bytes) :
  forall (acc : PyDict.dict pyval) (url : string) (summary : pyval),
    PyDict.get url (fold_left process_resource file_contents acc) = Some summary ->
    PyDict.get url acc = Some summary
    \/ exists data,
        In (url, data) file_contents
        /\ summary = or_error_summary (decode_resource url data).
Proof.
  induction file_contents as [|[u c] fc IH]; intros acc url summary G.
  - now left.
  - cbn [fold_left] in G. apply IH in G as [G | (data & I & E)].
    + unfold process_resource in G. cbn [fst snd] in G.
      destruct (string_dec url u) as [->|Ne].
      * rewrite get_set_same in G. injection G as <-.
        right. exists c. split; [now left | reflexivity].
      * rewrite get_set_other in G by assumption. now left.
    + right. exists data. split; [now right | exact E].
Qed.

(** X7: every entry of the mapping the decoder returns, for any mapping of
    files, is either an error summary or a summary whose first field is
    [type], with the tag of the class of its URL: pdf, csv, excel (for
    .xlsx and .xls), json or text (for .txt). *)
Theorem summaries_are_tagged
    (file_contents : PyDict.dict bytes) (url : string) (summary : pyval) :
  PyDict.get url (process_files file_contents) = Some summary ->
  In url (PyDict.keys file_contents)
  /\ ((exists e, summary = error_summary e)
      \/ exists tag fields,
          type_tag (detect_file_type url) = Some tag
          /\ summary = PDict (("type", PStr tag) :: fields)).
Proof.
  intros G. apply process_fold_values in G as [G | (data & I & ->)];
    [discriminate |].
  split.
  - unfold PyDict.keys. apply in_map_iff. now exists (url, data).
  - apply decode_resource_tagged.
Qed.

End DecoderFacts.

Lemma summaries_are_tagged_demo :
  In "https://quiz.test/data.xlsx" (PyDict.keys [("https://quiz.test/data.xlsx", @nil Init.Byte.byte)])
  /\ ((exists e, error_summary "File is not a zip file" = error_summary e)
      \/ exists tag fields,
          type_tag (detect_file_type "https://quiz.test/data.xlsx") = Some tag
          /\ error_summary "File is not a zip file"
             = PDict (("type", PStr tag) :: fields)).
Proof.
  apply (@summaries_are_tagged Reference.runtime Demo.decoders
           [("https://quiz.test/data.xlsx", @nil Init.Byte.byte)]).
  reflexivity.
Defined.

(** ** The prompt *)

Lemma take_length (n : nat) (s : string) : String.length (PyStr.take n s) <= n.
Proof.
  revert s. induction n as [|n IH]; intros [|c t]; simpl; try lia.
  specialize (IH t). lia.
Qed.

Section PromptFacts.

Context {World : Type} {py : PyRuntime} {dec : Decoders} {cap : Capabilities World}.

(** X8: [solve_question] sends one prompt to the reasoning service, after
    the downloads: the question, the links and the instructions, followed,
    only when a file was downloaded, by a heading and at most 5000
    characters of the serialized summaries; an exception of the
    serialization or of the service is passed on. *)
Theorem prompt_is_bounded (question_data : QuestionData) (w : World) :
  exists file_contents w1,
    download_attachments (links question_data) [] w = (Ok file_contents, w1)
    /\ solve_question question_data w
       = match prompt question_data file_contents with
         | Raise e => (Raise e, w1)
         | Ok p =>
             match create_message p w1 with
             | (Ok reply, w2) => (extract_final_answer reply, w2)
             | (Raise e, w2) => (Raise e, w2)
             end
         end
    /\ (file_contents = [] ->
        prompt question_data file_contents = Ok (base_context question_data))
    /\ forall p,
        prompt question_data file_contents = Ok p ->
        exists tail,
          p = base_context question_data ++ tail
          /\ String.length tail <= 23 + 5000.
Proof.
  destruct (download_attachments_collects (links question_data)
              (@nil (string * bytes)) w (NoDup_nil _))
    as (fc & w1 & Run & _ & _).
  exists fc, w1. split; [exact Run |]. split; [| split].
  - unfold solve_question, bind at 1. rewrite Run.
    unfold prompt, base_context, files_heading.
    destruct fc as [|item fc'].
    + unfold bind, ret, lift.
      destruct (create_message _ w1) as [[reply|e] w2]; reflexivity.
    + unfold bind at 1, bind at 1, lift at 1, rbind.
      destruct (json_dumps _) as [dumped|e]; [| reflexivity].
      unfold ret, bind, lift.
      rewrite !append_assoc.
      destruct (create_message _ w1) as [[reply|e] w2]; reflexivity.
  - intros ->. reflexivity.
  - intros p. unfold prompt. destruct fc as [|item fc'].
    + intros [= <-]. exists "". split; [now rewrite append_nil_r | simpl; lia].
    + unfold rbind. destruct (json_dumps _) as [dumped|e]; [| discriminate].
      intros E. exists (files_heading ++ PyStr.take 5000 dumped).
      split; [congruence |].
      rewrite length_append.
      pose proof (take_length 5000 dumped) as L.
      change (String.length files_heading) with 23. lia.
Qed.

End PromptFacts.

(** ** The endpoint *)

Section EndpointFacts.

Variables (YOUR_EMAIL YOUR_SECRET : string).
Variable new_solver : string -> string -> result unit.

(** X17: the endpoint answers 200 exactly when the secret and the email of
    the request are the configured ones and the solver can be built; a wrong
    secret gives 403 "Invalid secret" whatever the email is, a wrong email
    with the right secret gives 403 "Invalid email", and an exception of the
    constructor gives 500. *)
Theorem solve_quiz_checks_credentials
    (request : QuizRequest) (background_tasks : list Task) :
  let reply := fst (solve_quiz YOUR_EMAIL YOUR_SECRET new_solver
                      request background_tasks) in
  (reply_status reply = 200%Z <->
   req_secret request = YOUR_SECRET /\ req_email request = YOUR_EMAIL
   /\ exists u, new_solver (req_email request) (req_secret request) = Ok u)
  /\ (req_secret request <> YOUR_SECRET ->
      reply = HTTPException 403 "Invalid secret")
  /\ (req_secret request = YOUR_SECRET -> req_email request <> YOUR_EMAIL ->
      reply = HTTPException 403 "Invalid email")
  /\ (req_secret request = YOUR_SECRET -> req_email request = YOUR_EMAIL ->
      forall e,
        new_solver (req_email request) (req_secret request) = Raise e ->
        reply = HTTPException 500 ("Internal error: " ++ e)).
Proof.
  unfold solve_quiz, solve_quiz_body. cbv zeta.
  destruct (String.eqb_spec (req_secret request) YOUR_SECRET) as [Es|Ns];
    cbn [negb];
    [destruct (String.eqb_spec (req_email request) YOUR_EMAIL) as [Ee|Ne];
     cbn [negb];
     [destruct (new_solver (req_email request) (req_secret request)) as [u|e]
        eqn:New |] |];
    cbn [fst reply_status];
    (split; [split; [intros S | intros (S1 & S2 & u' & S3)] | split; [| split]]);
    intros; try contradiction; try discriminate; try reflexivity;
    try congruence; eauto.
Qed.

(** X18: a request that is not answered with 200 leaves the background
    tasks as they were; one that is answered with 200 adds exactly one task
    at the end, the chain for the URL of the request with the configured
    credentials. *)
Theorem solve_quiz_schedules_only_when_accepted
    (request : QuizRequest) (background_tasks : list Task) :
  let outcome := solve_quiz YOUR_EMAIL YOUR_SECRET new_solver
                   request background_tasks in
  (reply_status (fst outcome) <> 200%Z /\ snd outcome = background_tasks)
  \/ (reply_status (fst outcome) = 200%Z
      /\ snd outcome
         = (background_tasks
            ++ [{| task_email := YOUR_EMAIL;
                   task_secret := YOUR_SECRET;
                   task_url := req_url request |}])%list).
Proof.
  unfold solve_quiz, solve_quiz_body. cbv zeta.
  destruct (String.eqb_spec (req_secret request) YOUR_SECRET) as [Es|Ns];
    cbn [negb]; [| left; split; [discriminate | reflexivity]].
  destruct (String.eqb_spec (req_email request) YOUR_EMAIL) as [Ee|Ne];
    cbn [negb]; [| left; split; [discriminate | reflexivity]].
  destruct (new_solver (req_email request) (req_secret request)) as [u|e];
    cbn [fst snd reply_status].
  - right. rewrite Es, Ee. split; reflexivity.
  - left. split; [discriminate | reflexivity].
Qed.

End EndpointFacts.

(** ** The trace of a chain *)

Section TraceFacts.

Context {World : Type} {py : PyRuntime} {dec : Decoders} {cap : Capabilities World}.
Variables (email secret : string).

Lemma attempt_quiz_record (url : pyval) (w w' : World)
    (record : StepRecord) (response : pyval) :
  attempt_quiz email secret url w = (Ok (Submitted record response), w') ->
  is_solved record = true
  /\ record_url record = url
  /\ excerpt_length record <= 200.
Proof.
  unfold attempt_quiz, bind.
  destruct (extract_question url w) as [[qd|e] w1]; [| discriminate].
  destruct (solve_question qd w1) as [[answer|e] w2]; [| discriminate].
  destruct (submit_url qd) as [su|]; [| discriminate].
  destruct (PyStr.is_empty su); [discriminate |].
  destruct (submit_answer email secret su url answer w2) as [[response'|e] w3];
    [| discriminate].
  unfold lift, ret.
  destruct (py_get response' "correct" (PBool false)) as [c|]; [| discriminate].
  destruct (py_get response' "reason" PNone) as [r|]; [| discriminate].
  intros E.
  assert (R : record = StepSolved url (PyStr.take 200 (question qd)) answer c r)
    by congruence.
  subst record. cbn [is_solved record_url excerpt_length].
  repeat split. apply take_length.
Qed.

(** What one pass does to the trace. *)
Lemma chain_step_trace (st st' : ChainState) (w w' : World) (c : Control) :
  chain_step email secret st w = (c, st', w') ->
  (c = Break /\ results st' = results st)
  \/ (exists r,
         results st' = (results st ++ [r])%list
         /\ is_solved r = true
         /\ record_url r = current_url st
         /\ excerpt_length r <= 200)
  \/ (c = Break
      /\ exists e, results st' = (results st ++ [StepFailed (current_url st) e])%list).
Proof.
  unfold chain_step. cbn [current_url iteration results].
  destruct (attempt_quiz email secret (current_url st) w)
    as [[[|record response]|e] w1] eqn:A.
  - intros [= <- <- <-]. left. auto.
  - destruct (attempt_quiz_record _ _ A) as (S & U & L).
    destruct (attempt_quiz_submitted email secret _ _ A)
      as (d & excerpt & answer & -> & _).
    rewrite next_url_dict.
    destruct (match PyDict.get "url" d with
              | Some u => if truthy u then Some u else None
              | None => None
              end);
      intros [= <- <- <-]; right; left; exists record; simpl; auto.
  - intros [= <- <- <-]. right. right. simpl. eauto.
Qed.

Lemma chain_step_continue (st st' : ChainState) (w w' : World) :
  chain_step email secret st w = (Continue, st', w') ->
  exists r,
    results st' = (results st ++ [r])%list
    /\ is_solved r = true
    /\ record_url r = current_url st
    /\ excerpt_length r <= 200.
Proof.
  intros Step. destruct (chain_step_trace _ _ Step)
    as [[X _] | [R | [X _]]]; try discriminate. exact R.
Qed.

(** The records a run of the loop appends: answers first, then at most one
    failure; the first of them is for the URL the run starts at. *)
Lemma passes_trace (n : nat) (st st' : ChainState) (w w' : World) :
  passes email secret n st w st' w' ->
  exists solved tail,
    results st' = (results st ++ solved ++ tail)%list
    /\ Forall (fun r => is_solved r = true) solved
    /\ (tail = [] \/ exists u e, tail = [StepFailed u e])
    /\ Forall (fun r => excerpt_length r <= 200) (solved ++ tail)%list
    /\ match (solved ++ tail)%list with
       | r :: _ => record_url r = current_url st
       | [] => True
       end.
Proof.
  induction 1 as [st w G | st w st' w' G Step
                  | n st w st1 w1 st' w' G Step Run IH].
  - exists [], []. simpl. rewrite app_nil_r. auto.
  - destruct (chain_step_trace _ _ Step)
      as [[_ R] | [(r & R & S & U & L) | [_ (e & R)]]].
    + exists [], []. simpl. rewrite app_nil_r. auto.
    + exists [r], []. simpl. repeat split; auto.
    + exists [], [StepFailed (current_url st) e]. simpl.
      repeat split; eauto. constructor; [simpl; lia | constructor].
  - destruct (chain_step_continue _ _ Step) as (r & R & S & U & L).
    destruct IH as (solved & tail & R' & So & Ta & Ex & _).
    exists (r :: solved), tail. rewrite R', R, <- app_assoc. simpl.
    repeat split; auto.
Qed.

Lemma trace_of_chain (start_url : pyval) (w : World) :
  exists r w' solved tail,
    solve_quiz_chain email secret start_url w = Some (r, w')
    /\ chain_results r = (solved ++ tail)%list
    /\ Forall (fun x => is_solved x = true) solved
    /\ (tail = [] \/ exists u e, tail = [StepFailed u e])
    /\ Forall (fun x => excerpt_length x <= 200) (chain_results r)
    /\ match chain_results r with
       | x :: _ => record_url x = start_url
       | [] => True
       end.
Proof.
  destruct (chain_terminates email secret start_url w)
    as (n & st' & w' & _ & Solve & P & _).
  destruct (passes_trace P) as (solved & tail & R & So & Ta & Ex & Fi).
  simpl in R, Fi.
  exists (chain_result st'), w', solved, tail. simpl. rewrite R. auto 7.
Qed.

(** X11: in the trace of every chain the records of submitted answers come
    first and an error record, if there is one, is the last entry: nothing
    is recorded after a failure, and there is at most one. *)
Theorem failure_is_the_last_record (start_url : pyval) (w : World) :
  exists r w' solved tail,
    solve_quiz_chain email secret start_url w = Some (r, w')
    /\ chain_results r = (solved ++ tail)%list
    /\ Forall (fun x => is_solved x = true) solved
    /\ (tail = [] \/ exists u e, tail = [StepFailed u e])
    /\ count is_failure (chain_results r) <= 1.
Proof.
  destruct (trace_of_chain start_url w)
    as (r & w' & solved & tail & Solve & R & So & Ta & _).
  exists r, w', solved, tail. repeat split; auto.
  rewrite R. unfold count. rewrite filter_app, length_app.
  assert (Z : filter is_failure solved = []).
  { clear R. induction So as [|x l Hx _ IH]; [reflexivity |].
    simpl. destruct x; [exact IH | discriminate]. }
  rewrite Z. destruct Ta as [-> | (u & e & ->)]; simpl; lia.
Qed.

(** X12: the question excerpt of every record of every chain has at most
    200 characters. *)
Theorem excerpts_are_at_most_200_characters (start_url : pyval) (w : World) :
  exists r w',
    solve_quiz_chain email secret start_url w = Some (r, w')
    /\ Forall (fun x => excerpt_length x <= 200) (chain_results r).
Proof.
  destruct (trace_of_chain start_url w)
    as (r & w' & solved & tail & Solve & _ & _ & _ & Ex & _).
  eauto.
Qed.

(** X13: a trace that is not empty begins with the record of the start
    URL. *)
Theorem first_record_is_for_the_start_url (start_url : pyval) (w : World) :
  exists r w',
    solve_quiz_chain email secret start_url w = Some (r, w')
    /\ match chain_results r with
       | x :: _ => record_url x = start_url
       | [] => True
       end.
Proof.
  destruct (trace_of_chain start_url w)
    as (r & w' & solved & tail & Solve & _ & _ & _ & _ & Fi).
  eauto.
Qed.

Lemma first_pass_break (start_url : pyval) (w w' : World) (st' : ChainState) :
  truthy start_url = true ->
  chain_step email secret (initial_state start_url) w = (Break, st', w') ->
  solve_quiz_chain email secret start_url w = Some (chain_result st', w').
Proof.
  intros T Step. unfold solve_quiz_chain, run_chain. cbn [chain_loop].
  unfold loop_guard, initial_state at 1. cbn [current_url iteration].
  rewrite T. cbn [andb Nat.ltb Nat.leb max_iterations]. now rewrite Step.
Qed.

(** X10: when the first page names no submission endpoint, the question
    is still sent to the reasoning service first.  If that succeeds, the
    chain ends without any record, also without an error record, and
    nothing is submitted; if it raises, the chain ends with the single
    error record of the start URL. *)
Theorem page_without_endpoint_ends_chain
    (start_url : pyval) (w w1 : World) (question_data : QuestionData) :
  truthy start_url = true ->
  extract_question start_url w = (Ok question_data, w1) ->
  submit_url question_data = None ->
  solve_quiz_chain email secret start_url w
  = match solve_question question_data w1 with
    | (Ok _, w2) => Some ({| total_solved := 0; chain_results := [] |}, w2)
    | (Raise e, w2) =>
        Some ({| total_solved := 1;
                 chain_results := [StepFailed start_url e] |}, w2)
    end.
Proof.
  intros T Eq Es.
  destruct (solve_question question_data w1) as [[answer|e] w2] eqn:Ea.
  - apply first_pass_break with (st' := {| current_url := start_url; iteration := 1;
                                     results := [] |});
    [exact T |].
    unfold chain_step, initial_state. cbn [current_url iteration results].
    unfold attempt_quiz, bind at 1. rewrite Eq.
    unfold bind at 1. rewrite Ea, Es. reflexivity.
  - apply first_pass_break
      with (st' := {| current_url := start_url; iteration := 1;
                      results := [StepFailed start_url e] |});
    [exact T |].
    unfold chain_step, initial_state. cbn [current_url iteration results].
    unfold attempt_quiz, bind at 1. rewrite Eq.
    unfold bind at 1. rewrite Ea. reflexivity.
Qed.

(** X14: when the endpoint answers the first submission with a status
    outside 200..299, the trace is the single error record of the start URL
    with the message of the status error, and the chain ends. *)
Theorem rejected_submission_ends_chain
    (start_url : pyval) (w w1 w2 w3 : World)
    (question_data : QuestionData) (answer : pyval)
    (submit_to : string) (response : HttpResponse) :
  truthy start_url = true ->
  extract_question start_url w = (Ok question_data, w1) ->
  solve_question question_data w1 = (Ok answer, w2) ->
  submit_url question_data = Some submit_to ->
  http_post submit_to
    (PDict [("email", PStr email); ("secret", PStr secret);
            ("url", start_url); ("answer", answer)]) w2
  = (Ok response, w3) ->
  is_success (status_code response) = false ->
  solve_quiz_chain email secret start_url w
  = Some ({| total_solved := 1;
             chain_results := [StepFailed start_url (status_error response)] |},
          w3).
Proof.
  intros T Eq Ea Es Ep St.
  assert (Ne : PyStr.is_empty submit_to = false).
  { unfold extract_question, bind in Eq.
    destruct (render start_url w) as [[page|e] w0]; [| discriminate].
    unfold ret in Eq. injection Eq as <- <-. simpl in Es.
    eapply extract_submit_url_nonempty; eassumption. }
  apply first_pass_break with (st' := {| current_url := start_url; iteration := 1;
                      results := [StepFailed start_url (status_error response)] |});
    [exact T |].
  unfold chain_step, initial_state. cbn [current_url iteration results].
  unfold attempt_quiz, bind at 1. rewrite Eq.
  unfold bind at 1. rewrite Ea, Es, Ne.
  unfold bind at 1, submit_answer, submit_payload, bind at 1. rewrite Ep.
  unfold bind at 1, lift at 1, raise_for_status. rewrite St. reflexivity.
Qed.

(** X15: when the body of the first response decodes to something that is
    not a JSON object, no answer is recorded: the trace is a single error
    record of the start URL, and the chain ends. *)
Theorem response_that_is_no_object_ends_chain
    (start_url : pyval) (w w1 w2 w3 : World)
    (question_data : QuestionData) (answer response : pyval)
    (submit_to : string) :
  truthy start_url = true ->
  extract_question start_url w = (Ok question_data, w1) ->
  solve_question question_data w1 = (Ok answer, w2) ->
  submit_url question_data = Some submit_to ->
  submit_answer email secret submit_to start_url answer w2 = (Ok response, w3) ->
  (forall d, response <> PDict d) ->
  exists e,
    solve_quiz_chain email secret start_url w
    = Some ({| total_solved := 1;
               chain_results := [StepFailed start_url e] |}, w3).
Proof.
  intros T Eq Ea Es Ep Nd.
  assert (Ne : PyStr.is_empty submit_to = false).
  { unfold extract_question, bind in Eq.
    destruct (render start_url w) as [[page|e] w0]; [| discriminate].
    unfold ret in Eq. injection Eq as <- <-. simpl in Es.
    eapply extract_submit_url_nonempty; eassumption. }
  destruct (py_get response "correct" (PBool false)) as [c|e] eqn:G.
  { apply py_get_Ok in G as (d & -> & _). now elim (Nd d). }
  exists e.
  apply first_pass_break with (st' := {| current_url := start_url; iteration := 1;
                      results := [StepFailed start_url e] |});
    [exact T |].
  unfold chain_step, initial_state. cbn [current_url iteration results].
  unfold attempt_quiz, bind at 1. rewrite Eq.
  unfold bind at 1. rewrite Ea, Es, Ne.
  unfold bind at 1. rewrite Ep.
  unfold bind at 1, lift at 1. rewrite G. reflexivity.
Qed.

(** X16: when the first response is an object without a truthy [url], the
    chain ends after one pass with exactly one record: the start URL, the
    first 200 characters of the question, the answer, and [correct] and
    [reason] as the response gives them (false and none when missing). *)
Theorem single_quiz_is_recorded_once
    (start_url : pyval) (w w1 w2 w3 : World)
    (question_data : QuestionData) (answer : pyval)
    (submit_to : string) (d : PyDict.dict pyval) :
  truthy start_url = true ->
  extract_question start_url w = (Ok question_data, w1) ->
  solve_question question_data w1 = (Ok answer, w2) ->
  submit_url question_data = Some submit_to ->
  submit_answer email secret submit_to start_url answer w2 = (Ok (PDict d), w3) ->
  truthy (or_default (PyDict.get "url" d) PNone) = false ->
  solve_quiz_chain email secret start_url w
  = Some ({| total_solved := 1;
             chain_results :=
               [StepSolved start_url
                  (PyStr.take 200 (question question_data)) answer
                  (or_default (PyDict.get "correct" d) (PBool false))
                  (or_default (PyDict.get "reason" d) PNone)] |}, w3).
Proof.
  intros T Eq Ea Es Ep Nu.
  assert (Ne : PyStr.is_empty submit_to = false).
  { unfold extract_question, bind in Eq.
    destruct (render start_url w) as [[page|e] w0]; [| discriminate].
    unfold ret in Eq. injection Eq as <- <-. simpl in Es.
    eapply extract_submit_url_nonempty; eassumption. }
  apply first_pass_break with (st' := {| current_url := start_url; iteration := 1;
                      results :=
                        [StepSolved start_url
                           (PyStr.take 200 (question question_data)) answer
                           (or_default (PyDict.get "correct" d) (PBool false))
                           (or_default (PyDict.get "reason" d) PNone)] |});
    [exact T |].
  unfold chain_step, initial_state. cbn [current_url iteration results].
  unfold attempt_quiz, bind at 1. rewrite Eq.
  unfold bind at 1. rewrite Ea, Es, Ne.
  unfold bind at 1. rewrite Ep.
  unfold bind, lift, ret. cbn [py_get]. rewrite next_url_dict.
  unfold or_default in *.
  destruct (PyDict.get "url" d) as [u|]; [rewrite Nu |]; reflexivity.
Qed.

End TraceFacts.

(** ** The whole function on an empty start URL *)

Section SessionFacts.

Context {World : Type} {py : PyRuntime} {dec : Decoders}
        {cap : Capabilities World} {ses : Session World}.
Variables (email secret : string).

(** X9: a start URL that is falsy (the empty string) makes no pass of the
    loop: the renderer, the reasoning service and the endpoints are not
    called.  The function still enters Playwright, launches and closes the
    browser, leaves Playwright and closes the HTTP client; when none of
    these raises it returns the empty trace with [total_solved] 0, and when
    the launch raises it returns nothing. *)
Theorem empty_start_url_makes_no_pass (start_url : pyval) (w : World) :
  truthy start_url = false ->
  (forall w0,
      run_chain email secret start_url w0 = Some (initial_state start_url, w0))
  /\ solve_quiz_chain_session email secret start_url w
     = Some (idle_session {| total_solved := 0; chain_results := [] |} w)
  /\ (forall w1 w2 w3 w4 w5,
         playwright_start w = (Ok tt, w1) ->
         chromium_launch w1 = (Ok tt, w2) ->
         browser_close w2 = (Ok tt, w3) ->
         playwright_stop w3 = (Ok tt, w4) ->
         client_aclose w4 = (Ok tt, w5) ->
         solve_quiz_chain_session email secret start_url w
         = Some (Ok {| total_solved := 0; chain_results := [] |}, w5))
  /\ (forall w1 e w2,
         playwright_start w = (Ok tt, w1) ->
         chromium_launch w1 = (Raise e, w2) ->
         exists e' w3,
           solve_quiz_chain_session email secret start_url w
           = Some (Raise e', w3)).
Proof.
  intros T.
  assert (Loop : forall w0,
             run_chain email secret start_url w0
             = Some (initial_state start_url, w0)).
  { intros w0. unfold run_chain. cbn [chain_loop].
    unfold loop_guard, initial_state at 1. cbn [current_url]. now rewrite T. }
  split; [exact Loop |]. split; [| split].
  - unfold solve_quiz_chain_session, idle_session, finally_, leave_playwright,
      bind, ret.
    destruct (playwright_start w) as [[[]|e] w1]; [| reflexivity].
    destruct (chromium_launch w1) as [[[]|e] w2].
    + rewrite Loop.
      destruct (browser_close w2) as [[[]|e] w3].
      * destruct (playwright_stop w3) as [[[]|e] w4]; [| reflexivity].
        destruct (client_aclose w4) as [[[]|e] w5]; reflexivity.
      * destruct (playwright_stop w3) as [[[]|e'] w4]; reflexivity.
    + destruct (playwright_stop w2) as [[[]|e'] w3]; reflexivity.
  - intros w1 w2 w3 w4 w5 E1 E2 E3 E4 E5.
    unfold solve_quiz_chain_session, leave_playwright.
    now rewrite E1, E2, Loop, E3, E4, E5.
  - intros w1 e w2 E1 E2.
    unfold solve_quiz_chain_session, leave_playwright. rewrite E1, E2.
    destruct (playwright_stop w2) as [[[]|e'] w3]; eauto.
Qed.

End SessionFacts.

(** ** The scripted worlds meet the assumptions *)

Lemma rejected_submission_demo :
  option_map fst (Script.solve Demo.start Script.failing_endpoint)
  = Some {| total_solved := 1;
            chain_results :=
              [StepFailed Demo.start
                 "Server error '500 Internal Server Error'"] |}.
Proof.
  unfold Script.solve.
  rewrite (@rejected_submission_ends_chain Script.World Reference.runtime
             Demo.decoders Script.capabilities "student@quiz.test" "s3cret"
             Demo.start Script.failing_endpoint Script.failing_endpoint
             Script.failing_endpoint
             {| Script.page_text := Demo.quiz_text; Script.post_status := 500;
                Script.post_body := Raise "Expecting value";
                Script.posts := 1 |}
             {| question := Demo.quiz_text; html := "<html></html>";
                links := []; submit_url := Some "https://quiz.test/submit" |}
             (PInt 4) "https://quiz.test/submit"
             {| status_code := 500;
                status_error := "Server error '500 Internal Server Error'";
                content := []; body_json := Raise "Expecting value" |});
    reflexivity.
Defined.

Lemma response_that_is_no_object_demo :
  exists e,
    option_map fst (Script.solve Demo.start Script.array_endpoint)
    = Some {| total_solved := 1; chain_results := [StepFailed Demo.start e] |}.
Proof.
  destruct (@response_that_is_no_object_ends_chain Script.World
              Reference.runtime Demo.decoders Script.capabilities
              "student@quiz.test" "s3cret"
              Demo.start Script.array_endpoint Script.array_endpoint
              Script.array_endpoint
              {| Script.page_text := Demo.quiz_text; Script.post_status := 200;
                 Script.post_body := Ok (PList [PBool true]);
                 Script.posts := 1 |}
              {| question := Demo.quiz_text; html := "<html></html>";
                 links := []; submit_url := Some "https://quiz.test/submit" |}
              (PInt 4) (PList [PBool true]) "https://quiz.test/submit")
    as [e E]; try reflexivity.
  - intros d. discriminate.
  - exists e. unfold Script.solve. rewrite E. reflexivity.
Defined.

Lemma single_quiz_is_recorded_once_demo :
  option_map fst (Script.solve Demo.start Script.final_endpoint)
  = Some {| total_solved := 1;
            chain_results :=
              [StepSolved Demo.start Demo.quiz_text (PInt 4)
                 (PBool true) (PStr "ok")] |}.
Proof.
  unfold Script.solve.
  rewrite (@single_quiz_is_recorded_once Script.World Reference.runtime
             Demo.decoders Script.capabilities "student@quiz.test" "s3cret"
             Demo.start Script.final_endpoint Script.final_endpoint
             Script.final_endpoint
             {| Script.page_text := Demo.quiz_text; Script.post_status := 200;
                Script.post_body :=
                  Ok (PDict [("correct", PBool true); ("reason", PStr "ok")]);
                Script.posts := 1 |}
             {| question := Demo.quiz_text; html := "<html></html>";
                links := []; submit_url := Some "https://quiz.test/submit" |}
             (PInt 4) "https://quiz.test/submit"
             [("correct", PBool true); ("reason", PStr "ok")]);
    reflexivity.
Defined.

Lemma empty_start_url_demo :
  truthy (PStr "") = false
  /\ solve_quiz_chain_session (py := Reference.runtime) (dec := Demo.decoders)
       (cap := Demo.capabilities) (ses := Quiet.session)
       "student@quiz.test" "s3cret"
       (PStr "") Demo.single_quiz
     = Some (Ok {| total_solved := 0; chain_results := [] |}, Demo.single_quiz).
Proof.
  split; [reflexivity |].
  destruct (@empty_start_url_makes_no_pass Demo.World Reference.runtime
              Demo.decoders Demo.capabilities Quiet.session
              "student@quiz.test" "s3cret" (PStr "") Demo.single_quiz eq_refl)
    as (_ & _ & Quiet & _).
  apply (Quiet Demo.single_quiz Demo.single_quiz Demo.single_quiz
           Demo.single_quiz Demo.single_quiz); reflexivity.
Defined.

Lemma page_without_endpoint_demo :
  extract_submit_url (Script.page_text Script.no_endpoint) = None
  /\ Script.solve Demo.start Script.no_endpoint
     = Some ({| total_solved := 0; chain_results := [] |}, Script.no_endpoint).
Proof.
  split; [reflexivity |].
  unfold Script.solve.
  rewrite (@page_without_endpoint_ends_chain Script.World Reference.runtime
             Demo.decoders Script.capabilities "student@quiz.test" "s3cret"
             Demo.start Script.no_endpoint Script.no_endpoint
             {| question := "What is 2+2?"; html := "<html></html>";
                links := []; submit_url := None |});
    reflexivity.
Defined.

